(** * datasage RAG engine: ingestion, retrieval and indexing

    A shallow embedding of the Python sources

      - [rag_engine/ingestion/chunker.py]   (TextChunker)
      - [rag_engine/ingestion/loaders.py]   (DocumentLoader, PDF/TXT/CSV loaders)
      - [rag_engine/retrieval/retriever.py] (OllamaEmbedder, Retriever)
      - [rag_engine/retrieval/generator.py] (Ollama, LLMGenerator)

    and a model of the indexing engine built on them, written from its
    specification, together with the properties the specification states.

    Conventions.  A Python [str] is a Stdlib [string]; its characters are the
    code points 0..255.  A Python [int] is a [Z].  A [dict] with string keys
    is a [gmap string _].  A Python exception is a value of [exn] returned
    on the left of a sum.  A [while] loop that may run forever is a
    fuel-indexed function returning [None] when the fuel runs out, with
    lemmas relating the fuel that is used to the run of the loop. *)

From Stdlib Require Import ZArith NArith Ascii String List Lia DecimalString.
From Stdlib Require Import Floats.PrimFloat.
From stdpp Require Import base option list gmap strings.

Local Open Scope string_scope.
Local Open Scope list_scope.
Local Open Scope Z_scope.

(** ** Python values shared by the modules *)

(** Metadata values: the sources store strings (name, path, type) and
    integers (row, chunk). *)
Inductive meta_val : Type :=
  | MStr (s : string)
  | MInt (z : Z).

#[global] Instance meta_val_eq_dec : EqDecision meta_val.
Proof. solve_decision. Defined.

(** [langchain_core.documents.Document]: page content and metadata. *)
Record Document : Type := mkDocument {
  page_content : string;
  metadata : gmap string meta_val
}.

#[global] Instance Document_eq_dec : EqDecision Document.
Proof. solve_decision. Defined.

(** ** Python slicing of a [str] *)

Module PyStr.

(** [len(t)] as a Python int. *)
Definition len (t : string) : Z := Z.of_nat (String.length t).

(** How CPython adjusts one bound of a slice with step 1 in a sequence
    of length [n]: a negative bound counts from the end, and the result
    is clamped to [0, n]. *)
Definition adjust (n i : Z) : Z :=
  if i <? 0 then Z.max (i + n) 0 else Z.min i n.

(** [t[start:stop]]. *)
Definition slice (t : string) (start stop : Z) : string :=
  let lo := adjust (len t) start in
  let hi := adjust (len t) stop in
  substring (Z.to_nat lo) (Z.to_nat (hi - lo)) t.

End PyStr.

(** ** chunker.py *)

Module Chunker.

(** The two attributes set by [TextChunker.__init__]; the constructor
    checks nothing. *)
Record TextChunker : Type := mkTextChunker {
  chunk_size : Z;
  overlap : Z
}.

(** [TextChunker()] with the default arguments. *)
Definition default : TextChunker := mkTextChunker 1000 200.

(** [set_size]. *)
Definition set_size (self : TextChunker) (s : Z) : TextChunker :=
  mkTextChunker s (overlap self).

(** The [Document] built in one iteration of the loop of [chunk_one]:
    [piece = t[start:end]], and a copy of the source metadata in which
    ["chunk"] is set to [len(res)]. *)
Definition new_doc (self : TextChunker) (doc : Document)
    (start : Z) (n_res : nat) : Document :=
  let t := page_content doc in
  let end_ := start + chunk_size self in
  let piece := PyStr.slice t start end_ in
  let meta2 := <["chunk" := MInt (Z.of_nat n_res)]> (metadata doc) in
  mkDocument piece meta2.

(** The [while start < len(t)] loop of [chunk_one], from an arbitrary
    loop state [(start, res)].  [None]: the fuel ran out before the loop
    condition became false. *)
Fixpoint chunk_loop (fuel : nat) (self : TextChunker) (doc : Document)
    (start : Z) (res : list Document) : option (list Document) :=
  match fuel with
  | O => None
  | S fuel' =>
      if start <? PyStr.len (page_content doc) then
        let end_ := start + chunk_size self in
        let res' := res ++ [new_doc self doc start (length res)] in
        chunk_loop fuel' self doc (end_ - overlap self) res'
      else Some res
  end.

(** [chunk_one] run with a given amount of fuel. *)
Definition chunk_one_fuel (fuel : nat) (self : TextChunker) (doc : Document)
    : option (list Document) :=
  chunk_loop fuel self doc 0 [].

(** [chunk_one]: the loop is given one more iteration than the content
    has characters.  [chunk_one_complete] below shows that this loses
    nothing: when it is [None] the loop never ends, whatever the fuel. *)
Definition chunk_one (self : TextChunker) (doc : Document)
    : option (list Document) :=
  chunk_one_fuel (S (String.length (page_content doc))) self doc.

(** The [for d in docs] loop of [chunk_docs], from an accumulator
    [result]; a [chunk_one] that does not return stops everything. *)
Fixpoint chunk_docs_loop (self : TextChunker) (docs : list Document)
    (result : list Document) : option (list Document) :=
  match docs with
  | [] => Some result
  | d :: docs' =>
      match chunk_one self d with
      | Some parts => chunk_docs_loop self docs' (result ++ parts)
      | None => None
      end
  end.

Definition chunk_docs (self : TextChunker) (docs : list Document)
    : option (list Document) :=
  chunk_docs_loop self docs [].

(** *** Closed forms used to state the properties *)

(** The step by which [start] advances. *)
Definition stride (self : TextChunker) : Z := chunk_size self - overlap self.

(** The [i]-th window: the chunk the loop builds when it starts its
    [i]-th iteration at [i * stride]. *)
Definition window (self : TextChunker) (doc : Document) (i : nat) : Document :=
  new_doc self doc (Z.of_nat i * stride self) i.

Definition windows (self : TextChunker) (doc : Document) (n : nat)
    : list Document :=
  map (window self doc) (seq 0 n).

(** Ceiling of [a / b] for [0 < b]. *)
Definition ceil_div (a b : Z) : Z := (a + b - 1) / b.

(** The chunk count as the specification words it:
    [ceil(max(L - V, 1) / (C - V))]. *)
Definition spec_chunk_count (L C V : Z) : Z :=
  ceil_div (Z.max (L - V) 1) (C - V).

(** The chunk count of the loop: [ceil(L / (C - V))]. *)
Definition loop_chunk_count (L C V : Z) : Z := ceil_div L (C - V).

(** The number of iterations of the loop on [doc], as a [nat]. *)
Definition n_chunks (self : TextChunker) (doc : Document) : nat :=
  Z.to_nat (loop_chunk_count (PyStr.len (page_content doc))
              (chunk_size self) (overlap self)).

End Chunker.

(** ** Python exceptions and built-in string methods *)

(** An exception: its class and what [str(e)] gives. *)
Record exn : Type := mkExn {
  exn_class : string;
  exn_msg : string
}.

#[global] Instance exn_eq_dec : EqDecision exn.
Proof. solve_decision. Defined.

(** The result of a call that may raise. *)
Definition result (A : Type) : Type := exn + A.

Module PyBuiltins.

Local Open Scope N_scope.

(** [str.lower] on one code point below 256: the letters A-Z and the
    Latin-1 capitals (192-214, 216-222) move up by 32. *)
Definition lower_char (c : ascii) : ascii :=
  let n := N_of_ascii c in
  if ((65 <=? n) && (n <=? 90)) || ((192 <=? n) && (n <=? 214))
     || ((216 <=? n) && (n <=? 222))
  then ascii_of_N (n + 32) else c.

(** [s.lower()]. *)
Fixpoint lower (s : string) : string :=
  match s with
  | EmptyString => EmptyString
  | String c s' => String (lower_char c) (lower s')
  end.

(** [str.isspace] on one code point below 256. *)
Definition is_space (c : ascii) : bool :=
  let n := N_of_ascii c in
  ((9 <=? n) && (n <=? 13)) || ((28 <=? n) && (n <=? 32))
  || (n =? 133) || (n =? 160).

Fixpoint lstrip (s : string) : string :=
  match s with
  | EmptyString => EmptyString
  | String c s' => if is_space c then lstrip s' else s
  end.

Fixpoint rstrip (s : string) : string :=
  match s with
  | EmptyString => EmptyString
  | String c s' =>
      match rstrip s' with
      | EmptyString => if is_space c then EmptyString else String c EmptyString
      | r => String c r
      end
  end.

(** [s.strip()]. *)
Definition strip (s : string) : string := lstrip (rstrip s).

(** [s.endswith(suffix)]. *)
Definition endswith (s suffix : string) : bool :=
  (String.length suffix <=? String.length s)%nat
  && String.eqb
       (substring (String.length s - String.length suffix)
          (String.length suffix) s)
       suffix.

(** [s.split(sep)] for a one-character separator. *)
Fixpoint split_on (sep : ascii) (s : string) : list string :=
  match s with
  | EmptyString => [EmptyString]
  | String c s' =>
      if Ascii.eqb c sep then EmptyString :: split_on sep s'
      else match split_on sep s' with
           | [] => [String c EmptyString]
           | x :: xs => String c x :: xs
           end
  end.

(** [pathlib.Path(p).name] for POSIX paths: the last component of the
    path, where empty components and ["."] do not count; [""] when there
    is none. *)
Definition path_name (p : string) : string :=
  let keep x := negb (String.eqb x "") && negb (String.eqb x ".") in
  List.last (List.filter keep (split_on "/" p)) "".

(** [str(n)] for an int. *)
Definition str_of_int (z : Z) : string :=
  DecimalString.NilZero.string_of_int (Z.to_int z).

End PyBuiltins.

(** ** loaders.py *)

Module Loaders.

Import PyBuiltins.

(** What the loaders read from outside the program.  [read_text p] is
    [open(p, encoding="utf-8").read()]; [read_csv p] is the rows that
    [csv.DictReader] yields for the file, each row as its items with key
    and value as an f-string prints them; [read_pdf p] is, for each page of
    [PdfReader(p).pages], what [extract_text()] returns ([None] for a
    Python [None]).  Each of them may raise instead. *)
Record World : Type := mkWorld {
  pypdf_installed : bool;
  read_text : string -> result string;
  read_csv : string -> result (list (list (string * string)));
  read_pdf : string -> result (list (option string))
}.

(** The state of a loader object: [self.count]. *)
Record DocumentLoader : Type := mkDocumentLoader {
  count : Z
}.

(** [DocumentLoader.__init__]. *)
Definition init : DocumentLoader := mkDocumentLoader 0.

(** [_ext_ok]. *)
Definition _ext_ok (p ext : string) : bool := endswith (lower p) ext.

(** [_add]. *)
Definition _add (self : DocumentLoader) (n : Z) : DocumentLoader :=
  mkDocumentLoader (count self + n).

(** [reset] (the same in the three subclasses). *)
Definition reset (self : DocumentLoader) : DocumentLoader :=
  mkDocumentLoader 0.

(** The three subclasses of [DocumentLoader]. *)
Inductive loader_kind : Type := PDFLoader | TXTLoader | CSVLoader.

#[global] Instance loader_kind_eq_dec : EqDecision loader_kind.
Proof. solve_decision. Defined.

(** The extension each [load] passes to [_ext_ok]. *)
Definition ext (k : loader_kind) : string :=
  match k with
  | PDFLoader => ".pdf"
  | TXTLoader => ".txt"
  | CSVLoader => ".csv"
  end.

(** [summary]. *)
Definition summary (k : loader_kind) (self : DocumentLoader) : string :=
  match k with
  | PDFLoader => "pdf: " +:+ str_of_int (count self)
  | TXTLoader => "txt: " +:+ str_of_int (count self)
  | CSVLoader => "csv rows: " +:+ str_of_int (count self)
  end.

(** The metadata dict literal of the PDF and TXT loaders. *)
Definition file_meta (p type_ : string) : gmap string meta_val :=
  <["type" := MStr type_]>
    (<["path" := MStr p]> (<["name" := MStr (path_name p)]> ∅)).

(** The metadata dict literal of the CSV loader. *)
Definition row_meta (p : string) (i : nat) : gmap string meta_val :=
  <["type" := MStr "csv"]>
    (<["row" := MInt (Z.of_nat i)]>
       (<["path" := MStr p]> (<["name" := MStr (path_name p)]> ∅))).

(** [", ".join(f"{k}={v}" for k, v in row.items())]. *)
Definition row_line (row : list (string * string)) : string :=
  String.concat ", " (List.map (fun kv => fst kv +:+ "=" +:+ snd kv) row).

(** The documents of the rows of one CSV file, numbered by [enumerate]
    from [i]. *)
Fixpoint row_docs (p : string) (i : nat)
    (rows : list (list (string * string))) : list Document :=
  match rows with
  | [] => []
  | row :: rows' =>
      mkDocument (row_line row) (row_meta p i) :: row_docs p (S i) rows'
  end.

(** ["\n".join(buf)] where [buf] holds [pg.extract_text() or ""] for each
    page. *)
Definition pages_text (pages : list (option string)) : string :=
  String.concat (String "010"%char EmptyString)
    (List.map (fun pg => match pg with Some txt => txt | None => "" end)
       pages).

(** The body of the [for p in paths] loop for a path that passed
    [_ext_ok]: the documents appended to [out], or the exception raised. *)
Definition load_path (k : loader_kind) (w : World) (p : string)
    : result (list Document) :=
  match k with
  | TXTLoader =>
      match read_text w p with
      | inl e => inl e
      | inr raw => inr [mkDocument (strip raw) (file_meta p "txt")]
      end
  | CSVLoader =>
      match read_csv w p with
      | inl e => inl e
      | inr rows => inr (row_docs p 0 rows)
      end
  | PDFLoader =>
      match read_pdf w p with
      | inl e => inl e
      | inr pages =>
          let all_txt := strip (pages_text pages) in
          if String.eqb all_txt "" then inr []
          else inr [mkDocument all_txt (file_meta p "pdf")]
      end
  end.

(** The [for p in paths] loop of [load], from the accumulator [out]. *)
Fixpoint load_loop (k : loader_kind) (w : World) (paths : list string)
    (out : list Document) : result (list Document) :=
  match paths with
  | [] => inr out
  | p :: paths' =>
      if negb (_ext_ok p (ext k)) then load_loop k w paths' out
      else match load_path k w p with
           | inl e => inl e
           | inr docs => load_loop k w paths' (out ++ docs)
           end
  end.

(** [load]: the documents and the loader with its updated count, or the
    exception raised, in which case the count is as before.  The PDF
    loader first imports [pypdf]. *)
Definition load (k : loader_kind) (self : DocumentLoader) (w : World)
    (paths : list string) : result (list Document * DocumentLoader) :=
  let import_error :=
    match k with
    | PDFLoader => negb (pypdf_installed w)
    | _ => false
    end in
  if import_error then inl (mkExn "ImportError" "need pypdf")
  else match load_loop k w paths [] with
       | inl e => inl e
       | inr out => inr (out, _add self (Z.of_nat (length out)))
       end.

(** The test of the loop of [load], as a predicate on paths. *)
Definition matching (k : loader_kind) (p : string) : bool :=
  _ext_ok p (ext k).

End Loaders.

(** ** retriever.py: [OllamaEmbedder] *)

Module Retriever.

Import PyBuiltins.

(** A JSON value as [json.loads] builds it and [json.dumps] prints it.
    An object is the list of the items of the dict, in order; the keys of
    a dict are distinct. *)
#[warnings="-register-all"]
Inductive json : Type :=
  | JNull
  | JBool (b : bool)
  | JInt (z : Z)
  | JFloat (f : PrimFloat.float)
  | JStr (s : string)
  | JArr (l : list json)
  | JObj (items : list (string * json)).

(** [d.get(key)] on the items of a dict. *)
Fixpoint dict_lookup (items : list (string * json)) (key : string)
    : option json :=
  match items with
  | [] => None
  | (k, v) :: items' =>
      if String.eqb k key then Some v else dict_lookup items' key
  end.

(** [result.get(key, dflt)]: only a dict has the method. *)
Definition get (v : json) (key : string) (dflt : json) : result json :=
  match v with
  | JObj items =>
      inr (match dict_lookup items key with Some x => x | None => dflt end)
  | _ => inl (mkExn "AttributeError" "object has no attribute 'get'")
  end.

(** [urllib.request.Request(url, data=..., headers=...)].  [req_data] is
    the value whose [json.dumps(...).encode("utf-8")] is the body. *)
Record Request : Type := mkRequest {
  req_url : string;
  req_data : option json;
  req_headers : list (string * string)
}.

(** [Request.get_method]: POST when there is a body, GET otherwise. *)
Definition get_method (r : Request) : string :=
  match req_data r with
  | Some _ => "POST"
  | None => "GET"
  end.

(** The response object: its status, and what
    [json.loads(response.read().decode("utf-8"))] gives, a value or the
    exception raised on the way. *)
Record Response : Type := mkResponse {
  status : Z;
  body : result json
}.

(** [urllib.request.urlopen]: a response, or the exception raised; a
    connection that fails raises [URLError]. *)
Definition Network : Type := Request -> result Response.

(** [isinstance(e, urllib.error.URLError)]: [URLError] and its
    subclasses. *)
Definition is_URLError (e : exn) : bool :=
  String.eqb (exn_class e) "URLError"
  || String.eqb (exn_class e) "HTTPError"
  || String.eqb (exn_class e) "ContentTooShortError".

Record OllamaEmbedder : Type := mkOllamaEmbedder {
  model : string;
  base_url : string
}.

(** [OllamaEmbedder()] with the default arguments. *)
Definition default : OllamaEmbedder :=
  mkOllamaEmbedder "nomic-embed-text" "http://localhost:11434".

(** The request [_get_embedding] builds before the [try]. *)
Definition embedding_request (self : OllamaEmbedder) (text : string)
    : Request :=
  let url := base_url self +:+ "/api/embeddings" in
  let payload := JObj [("model", JStr (model self)); ("prompt", JStr text)] in
  mkRequest url (Some payload) [("Content-Type", "application/json")].

(** The body of the [try] of [_get_embedding]. *)
Definition try_body (response : result Response) : result json :=
  match response with
  | inl e => inl e
  | inr response =>
      if negb (status response =? 200)
      then inl (mkExn "Exception"
                  ("Ollama API returned status "
                   +:+ str_of_int (status response)))
      else match body response with
           | inl e => inl e
           | inr result => get result "embedding" (JArr [])
           end
  end.

(** The [except urllib.error.URLError as e] clause. *)
Definition except_URLError (self : OllamaEmbedder) (r : result json)
    : result json :=
  match r with
  | inl e =>
      if is_URLError e
      then inl (mkExn "Exception"
                  ("Failed to connect to Ollama at " +:+ base_url self
                   +:+ ": " +:+ exn_msg e))
      else inl e
  | inr v => inr v
  end.

(** [_get_embedding]: the requests sent, in order, and the value returned
    or the exception raised. *)
Definition _get_embedding (self : OllamaEmbedder) (net : Network)
    (text : string) : list Request * result json :=
  let req := embedding_request self text in
  ([req], except_URLError self (try_body (net req))).

(** [embed_query]. *)
Definition embed_query (self : OllamaEmbedder) (net : Network)
    (text : string) : list Request * result json :=
  _get_embedding self net text.

(** [embed_documents]: the list comprehension stops at the first call
    that raises. *)
Fixpoint embed_documents (self : OllamaEmbedder) (net : Network)
    (texts : list string) : list Request * result (list json) :=
  match texts with
  | [] => ([], inr [])
  | text :: texts' =>
      match _get_embedding self net text with
      | (sent, inl e) => (sent, inl e)
      | (sent, inr v) =>
          match embed_documents self net texts' with
          | (sent', inl e) => (sent ++ sent', inl e)
          | (sent', inr vs) => (sent ++ sent', inr (v :: vs))
          end
      end
  end.

End Retriever.

(** ** The indexing engine *)

Module Engine.

Import PyBuiltins Chunker Loaders.

(** The kinds of error of the engine. *)
Inductive error_kind : Type :=
  | ConfigurationError
  | FileValidationError
  | LoaderError
  | LoaderExecutionError
  | ChunkingError
  | StorageError
  | ArgumentError.

#[global] Instance error_kind_eq_dec : EqDecision error_kind.
Proof. solve_decision. Defined.

(** An error raised by the engine: its kind and its message. *)
Record error : Type := mkError {
  err_kind : error_kind;
  err_msg : string
}.

(** The outcome recorded in the history. *)
Inductive outcome : Type :=
  | Success (n_chunks : nat)
  | Skipped
  | Failed (msg : string).

(** One record of [_indexing_history]: path, outcome (status with the
    chunk count or the error) and timestamp. *)
Record history_entry : Type := mkEntry {
  h_path : string;
  h_outcome : outcome;
  h_timestamp : Z
}.

(** What the engine reaches outside itself: the file system as
    validation sees it, what the loaders read, the vector store's
    verdict on a commit ([Some msg] when it fails), and the clock, read
    once per history record. *)
Record Env : Type := mkEnv {
  abspath : string -> string;
  path_exists : string -> bool;
  is_file : string -> bool;
  file_size : string -> Z;
  world : World;
  store_rejects : list Document -> list Document -> option string;
  clock : nat -> Z
}.

(** Modelled from the spec: the state of [IndexingEngine], whose source
    file [rag_engine/indexing/index_engine.py] is not among the sources.
    The configuration is fixed at construction; [_indexed_files] is a set
    of absolute paths; [_failed_files] maps the path as the caller gave
    it to the last error message; [_indexing_history] only grows;
    [vector_store] holds the chunks committed so far. *)
Record IndexingEngine : Type := mkIndexingEngine {
  persist_dir : string;
  chunker : TextChunker;
  _indexed_files : gset string;
  _failed_files : gmap string string;
  _indexing_history : list history_entry;
  vector_store : list Document
}.

(** Modelled from the spec: the constructor of [IndexingEngine], which
    is not among the sources.  It enforces [chunk_size > 0] and
    [overlap < chunk_size] and starts with empty state. *)
Definition new_engine (dir : string) (size ovl : Z)
    : error + IndexingEngine :=
  if size <=? 0
  then inl (mkError ConfigurationError "chunk_size must be positive")
  else if size <=? ovl
  then inl (mkError ConfigurationError
              "overlap must be smaller than chunk_size")
  else inr (mkIndexingEngine dir (mkTextChunker size ovl) ∅ ∅ [] []).

(** Modelled from the spec: the static mapping from extension to
    loader, which is not among the sources. *)
Definition _get_loader (path : string) : option loader_kind :=
  if _ext_ok path ".txt" then Some TXTLoader
  else if _ext_ok path ".csv" then Some CSVLoader
  else if _ext_ok path ".pdf" then Some PDFLoader
  else None.

(** Modelled from the spec: step 1 of [index], [_validate_file], which is
    not among the sources: the path exists, is a regular file, is not
    empty, and has a registered loader. *)
Definition _validate_file (env : Env) (path : string) : option error :=
  if negb (path_exists env path)
  then Some (mkError FileValidationError "File not found")
  else if negb (is_file env path)
  then Some (mkError FileValidationError "Path is not a file")
  else if file_size env path =? 0
  then Some (mkError FileValidationError "file is empty")
  else match _get_loader path with
       | None => Some (mkError FileValidationError "Unsupported extension")
       | Some _ => None
       end.

(** Modelled from the spec: [_check_duplicate], which is not among the
    sources: the absolute form of the path is in [_indexed_files]. *)
Definition _check_duplicate (env : Env) (self : IndexingEngine)
    (path : string) : bool :=
  bool_decide (abspath env path ∈ _indexed_files self).

(** Appending one record to the history, stamped by the clock. *)
Definition record (env : Env) (self : IndexingEngine) (path : string)
    (o : outcome) : list history_entry :=
  _indexing_history self
  ++ [mkEntry path o (clock env (length (_indexing_history self)))].

(** Modelled from the spec: step 7 of [index]: the failure is recorded
    under the path as given, a failure record is appended, and the error
    is raised again. *)
Definition fail (env : Env) (self : IndexingEngine) (path : string)
    (e : error) : (error + list Document) * IndexingEngine :=
  (inl e,
   mkIndexingEngine (persist_dir self) (chunker self)
     (_indexed_files self)
     (<[path := err_msg e]> (_failed_files self))
     (record env self path (Failed (err_msg e)))
     (vector_store self)).

(** Modelled from the spec: step 5 of [index]: the chunker is run on
    each loaded document and the caller's metadata is merged into every
    chunk, the caller's keys winning.  [None]: a [chunk_one] does not
    return. *)
Definition chunk_all (self : IndexingEngine)
    (meta : gmap string meta_val) (docs : list Document)
    : option (list Document) :=
  List.map (fun c => mkDocument (page_content c) (meta ∪ metadata c))
    <$> chunk_docs (chunker self) docs.

(** Modelled from the spec: [index(path, metadata, force_reindex)], which
    is not among the sources, as the seven steps of the specification:
    validate, skip a duplicate (empty result, a history record, no
    error), resolve the loader, load the single path, chunk, commit;
    every failure goes through [fail].  The result is the chunks or the
    error raised, with the engine after the call; [None] when the call
    does not return. *)
Definition index (env : Env) (self : IndexingEngine) (path : string)
    (meta : gmap string meta_val) (force_reindex : bool)
    : option ((error + list Document) * IndexingEngine) :=
  match _validate_file env path with
  | Some e => Some (fail env self path e)
  | None =>
  if negb force_reindex && _check_duplicate env self path
  then Some (inr [],
             mkIndexingEngine (persist_dir self) (chunker self)
               (_indexed_files self) (_failed_files self)
               (record env self path Skipped) (vector_store self))
  else
  match _get_loader path with
  | None => Some (fail env self path
                    (mkError LoaderError "No loader available"))
  | Some k =>
  match load k Loaders.init (world env) [path] with
  | inl e => Some (fail env self path
                     (mkError LoaderExecutionError (exn_msg e)))
  | inr (docs, _) =>
  match chunk_all self meta docs with
  | None => None
  | Some chunks =>
  match store_rejects env (vector_store self) chunks with
  | Some msg => Some (fail env self path (mkError StorageError msg))
  | None =>
      Some (inr chunks,
            mkIndexingEngine (persist_dir self) (chunker self)
              ({[abspath env path]} ∪ _indexed_files self)
              (delete path (_failed_files self))
              (record env self path (Success (length chunks)))
              (vector_store self ++ chunks))
  end end end end end.

End Engine.

(** ** Views of a chunk list *)

Module ChunkViews.

(** [s[n:]] for [n >= 0]. *)
Definition str_drop (n : nat) (s : string) : string :=
  substring n (String.length s - n) s.

(** ["".join(l)]. *)
Fixpoint join_all (l : list string) : string :=
  match l with
  | [] => EmptyString
  | x :: l' => x +:+ join_all l'
  end.

(** The text that a list of chunk contents stands for when consecutive
    chunks share [v] characters: the first chunk, then every other chunk
    without its first [v] characters. *)
Definition rebuild (v : nat) (chunks : list string) : string :=
  match chunks with
  | [] => EmptyString
  | c :: rest => c +:+ join_all (List.map (str_drop v) rest)
  end.

End ChunkViews.

(** ** generator.py *)

Module Generator.

Import PyBuiltins Retriever.

(** The client class [Ollama]. *)
Record Ollama : Type := mkOllama {
  model : string;
  base_url : string
}.

(** The line feed of the prompts. *)
Definition nl : string := String "010"%char EmptyString.

(** The request [complete] builds before the [try]. *)
Definition generate_request (self : Ollama) (prompt : string) : Request :=
  let url := base_url self +:+ "/api/generate" in
  let payload :=
    JObj [("model", JStr (model self)); ("prompt", JStr prompt);
          ("stream", JBool false)] in
  mkRequest url (Some payload) [("Content-Type", "application/json")].

(** The body of the [try] of [complete]. *)
Definition try_body (response : result Response) : result json :=
  match response with
  | inl e => inl e
  | inr response =>
      if negb (status response =? 200)
      then inl (mkExn "Exception"
                  ("Ollama API returned status "
                   +:+ str_of_int (status response)))
      else match body response with
           | inl e => inl e
           | inr result => get result "response" (JStr "")
           end
  end.

(** The [except urllib.error.URLError as e] clause of [complete]. *)
Definition except_URLError (self : Ollama) (r : result json) : result json :=
  match r with
  | inl e =>
      if is_URLError e
      then inl (mkExn "Exception"
                  ("Failed to connect to Ollama at " +:+ base_url self
                   +:+ ": " +:+ exn_msg e))
      else inl e
  | inr v => inr v
  end.

(** [Ollama.complete]: the requests sent and the value returned or the
    exception raised. *)
Definition complete (self : Ollama) (net : Network) (prompt : string)
    : list Request * result json :=
  let req := generate_request self prompt in
  ([req], except_URLError self (try_body (net req))).

Record LLMGenerator : Type := mkLLMGenerator {
  llm : Ollama
}.

(** [LLMGenerator.__init__]: the client is built with the default
    [base_url]. *)
Definition init (model : string) : LLMGenerator :=
  mkLLMGenerator (mkOllama model "http://localhost:11434").

(** [LLMGenerator()] with the default model. *)
Definition default : LLMGenerator := init "llama3.1".

(** The prompt of [summarize_docs]. *)
Definition summary_prompt (docs : list Document) : string :=
  let context_str := String.concat (nl +:+ nl) (List.map page_content docs) in
  "Summarize the following text in concise bullet points:" +:+ nl +:+ nl
  +:+ context_str +:+ nl +:+ nl +:+ "Summary:".

(** [summarize_docs]. *)
Definition summarize_docs (self : LLMGenerator) (net : Network)
    (docs : list Document) : list Request * result json :=
  complete (llm self) net (summary_prompt docs).

(** The prompt of [evaluate_relevance]. *)
Definition relevance_prompt (question answer : string) : string :=
  "Question: " +:+ question +:+ nl
  +:+ "Answer: " +:+ answer +:+ nl +:+ nl
  +:+ "Rate the relevance of the answer to the question on a scale of 1 to 10. "
  +:+ "Provide a brief explanation for your rating.".

(** [evaluate_relevance]. *)
Definition evaluate_relevance (self : LLMGenerator) (net : Network)
    (question answer : string) : list Request * result json :=
  complete (llm self) net (relevance_prompt question answer).

Section GenerateAnswer.

(** What Python prints for a metadata dict in an f-string, and what
    [str] gives for a JSON value that is not a string. *)
Variable str_of_dict : gmap string meta_val -> string.
Variable str_of_value : json -> string.

(** [str(response)]: a [str] is returned as it is. *)
Definition py_str (v : json) : string :=
  match v with
  | JStr s => s
  | _ => str_of_value v
  end.

(** One entry of the context of [generate_answer]. *)
Definition context_entry (doc : Document) : string :=
  "Source: " +:+ str_of_dict (metadata doc) +:+ nl
  +:+ "Content: " +:+ page_content doc.

(** The prompt of [generate_answer]. *)
Definition answer_prompt (question : string) (context_docs : list Document)
    : string :=
  let context_str :=
    String.concat (nl +:+ nl) (List.map context_entry context_docs) in
  "Use the following context to answer the question:" +:+ nl +:+ nl
  +:+ context_str +:+ nl +:+ nl
  +:+ "Question: " +:+ question +:+ nl +:+ "Answer:".

(** [generate_answer]. *)
Definition generate_answer (self : LLMGenerator) (net : Network)
    (question : string) (context_docs : list Document)
    : list Request * result string :=
  match complete (llm self) net (answer_prompt question context_docs) with
  | (sent, inl e) => (sent, inl e)
  | (sent, inr response) => (sent, inr (py_str response))
  end.

End GenerateAnswer.

End Generator.

(** ** retriever.py: [Retriever] *)

Module Retrieval.

Import Retriever.

(** The store behind [self.vs.store], whose class is not among the
    sources: the two searches the retriever calls, each returning its
    results or raising. *)
Record VectorStore : Type := mkVectorStore {
  similarity_search_by_vector :
    json -> Z -> option (gmap string meta_val) -> result (list Document);
  similarity_search_with_score :
    string -> Z -> result (list (Document * PrimFloat.float))
}.

(** What a call of the retriever does outside the program, in order. *)
Inductive event : Type :=
  | Http (r : Request)
  | SearchByVector (embedding : json) (k : Z)
      (filter : option (gmap string meta_val))
  | SearchWithScore (query : string) (k : Z).

Record Retriever : Type := mkRetriever {
  vs : VectorStore;
  embedder : OllamaEmbedder
}.

(** [Document(page_content=d.page_content, metadata=d.metadata)]. *)
Definition copy_doc (d : Document) : Document :=
  mkDocument (page_content d) (metadata d).

(** [retrieve]. *)
Definition retrieve (self : Retriever) (net : Network) (query : string)
    (k : Z) (filter : option (gmap string meta_val))
    : list event * result (list Document) :=
  match embed_query (embedder self) net query with
  | (sent, inl e) => (List.map Http sent, inl e)
  | (sent, inr embedding) =>
      (List.map Http sent ++ [SearchByVector embedding k filter],
       match similarity_search_by_vector (vs self) embedding k filter with
       | inl e => inl e
       | inr results => inr (List.map copy_doc results)
       end)
  end.

(** [retrieve_with_scores]. *)
Definition retrieve_with_scores (self : Retriever) (query : string) (k : Z)
    : list event * result (list (Document * PrimFloat.float)) :=
  ([SearchWithScore query k],
   match similarity_search_with_score (vs self) query k with
   | inl e => inl e
   | inr results =>
       inr (List.map (fun ds => (copy_doc (fst ds), snd ds)) results)
   end).

(** [retrieve_by_source]. *)
Definition retrieve_by_source (self : Retriever) (net : Network)
    (query source : string) (k : Z) : list event * result (list Document) :=
  retrieve self net query k (Some {["source" := MStr source]}).

End Retrieval.

(** ** Inputs for the examples *)

Module Examples.

Import Chunker Loaders Retriever Engine.

(** A document with no metadata, for the examples. *)
Definition doc_of (content : string) : Document := mkDocument content ∅.

(** The contents of the chunks of a result, for the examples. *)
Definition contents (r : option (list Document)) : option (list string) :=
  fmap (M := list) page_content <$> r.

(** A world with one text file, ["notes/A.TXT"]; reading anything else
    raises. *)
Definition one_txt_world : World :=
  let missing := mkExn "FileNotFoundError" "No such file or directory" in
  mkWorld false
    (fun p => if String.eqb p "notes/A.TXT" then inr " hello " else inl missing)
    (fun _ => inl missing)
    (fun _ => inl missing).

(** A server that is down: every connection is refused. *)
Definition net_down : Network :=
  fun _ => inl (mkExn "URLError" "<urlopen error [Errno 111] Connection refused>").

(** A server that answers every request with status 200 and the given
    JSON value. *)
Definition net_answers (v : json) : Network :=
  fun _ => inr (mkResponse 200 (inr v)).

(** An environment with the text file of [one_txt_world], a store that
    accepts every commit, and a clock that counts the records. *)
Definition demo_env : Env :=
  mkEnv (fun p => "/home/user/" +:+ p)
    (fun p => String.eqb p "notes/A.TXT")
    (fun p => String.eqb p "notes/A.TXT")
    (fun _ => 7)
    one_txt_world
    (fun _ _ => None)
    Z.of_nat.

(** The engine that [new_engine "db" 4 2] returns. *)
Definition demo_engine : IndexingEngine :=
  mkIndexingEngine "db" (mkTextChunker 4 2) ∅ ∅ [] [].

End Examples.

(** * Properties *)

(** ** Substrings and slices *)

Section Substring.

Local Open Scope nat_scope.

Lemma str_app_nil_l (s : string) : "" +:+ s = s.
Proof. reflexivity. Qed.

Lemma str_app_cons (c : ascii) (s1 s2 : string) :
  String c s1 +:+ s2 = String c (s1 +:+ s2).
Proof. reflexivity. Qed.

Lemma substring_length (n m : nat) (s : string) :
  String.length (substring n m s) = Nat.min m (String.length s - n).
Proof.
  revert n m. induction s as [|c s IH]; intros [|n] [|m]; simpl; auto;
    rewrite IH; lia.
Qed.

Lemma substring_whole (m : nat) (s : string) :
  String.length s <= m -> substring 0 m s = s.
Proof.
  revert m. induction s as [|c s IH]; intros [|m] H; simpl in *; auto; try lia.
  f_equal. apply IH. lia.
Qed.

Lemma substring_beyond (n m : nat) (s : string) :
  String.length s <= n -> substring n m s = "".
Proof.
  revert n m. induction s as [|c s IH]; intros [|n] [|m] H; simpl in *;
    auto; try lia; apply IH; lia.
Qed.

(** Asking for more characters than are left gives what is left. *)
Lemma substring_clip (n m : nat) (s : string) :
  String.length s - n <= m ->
  substring n m s = substring n (String.length s - n) s.
Proof.
  revert n m. induction s as [|c s IH]; intros n m H.
  - now destruct n, m.
  - destruct n as [|n].
    + destruct m as [|m]; simpl in *; [lia|].
      rewrite !substring_whole; auto; lia.
    + simpl in *. now apply IH.
Qed.

(** A window that reaches the end of [s] is the suffix of [s] from its
    start: the characters before it and the window make up [s]. *)
Lemma substring_suffix (n m : nat) (s : string) :
  n <= String.length s -> String.length s <= n + m ->
  s = substring 0 n s +:+ substring n m s.
Proof.
  revert n m. induction s as [|c s IH]; intros [|n] m Hn Hm; simpl in *.
  - now destruct m.
  - lia.
  - destruct m as [|m]; [lia|]. simpl. rewrite str_app_nil_l. f_equal.
    symmetry. apply substring_whole. lia.
  - rewrite str_app_cons. f_equal. apply IH; lia.
Qed.

End Substring.

Section Slice.

Import PyStr.

(** With bounds that are not negative, a slice is the substring that
    starts at [start] and has at most [stop - start] characters. *)
Lemma slice_substring (t : string) (start stop : Z) :
  0 <= start <= stop ->
  slice t start stop = substring (Z.to_nat start) (Z.to_nat (stop - start)) t.
Proof.
  intros H. unfold slice, adjust, len.
  destruct (Z.ltb_spec start 0), (Z.ltb_spec stop 0); try lia.
  set (L := String.length t).
  destruct (Z.le_gt_cases start (Z.of_nat L)) as [Hs|Hs].
  - rewrite (Z.min_l start) by lia.
    destruct (Z.le_gt_cases stop (Z.of_nat L)) as [He|He].
    + now rewrite (Z.min_l stop) by lia.
    + rewrite (Z.min_r stop) by lia.
      rewrite (substring_clip _ (Z.to_nat (stop - start))) by (fold L; lia).
      rewrite (substring_clip _ (Z.to_nat (Z.of_nat L - start)))
        by (fold L; lia).
      reflexivity.
  - rewrite (Z.min_r start), (Z.min_r stop) by lia.
    replace (Z.to_nat (Z.of_nat L - Z.of_nat L)) with 0%nat by lia.
    rewrite !substring_beyond; auto; fold L; lia.
Qed.

Lemma slice_length_le (t : string) (start c : Z) :
  0 <= start -> 0 <= c -> len (slice t start (start + c)) <= c.
Proof.
  intros Hs Hc. rewrite slice_substring by lia.
  unfold len. rewrite substring_length. lia.
Qed.

End Slice.

(** ** Arithmetic of the ceiling *)

Import Chunker.

Lemma ceil_div_bounds (a b : Z) :
  0 < b -> (ceil_div a b - 1) * b < a <= ceil_div a b * b.
Proof.
  intros Hb. unfold ceil_div.
  pose proof (Z.div_mod (a + b - 1) b ltac:(lia)) as Hdm.
  pose proof (Z.mod_pos_bound (a + b - 1) b Hb) as Hm.
  nia.
Qed.

Lemma ceil_div_unique (a b n : Z) :
  0 < b -> (n - 1) * b < a <= n * b -> ceil_div a b = n.
Proof.
  intros Hb Hn. pose proof (ceil_div_bounds a b Hb) as Hc. nia.
Qed.

(** Without overlap the count of the specification is the count of the
    loop. *)
Lemma spec_chunk_count_no_overlap (L C : Z) :
  0 < L -> spec_chunk_count L C 0 = loop_chunk_count L C 0.
Proof.
  intros HL. unfold spec_chunk_count, loop_chunk_count.
  now rewrite Z.sub_0_r, Z.max_l by lia.
Qed.

(** With overlap the count of the specification is never above the count
    of the loop. *)
Lemma spec_chunk_count_le (L C V : Z) :
  0 <= V < C -> 0 < L -> spec_chunk_count L C V <= loop_chunk_count L C V.
Proof.
  intros HV HL. unfold spec_chunk_count, loop_chunk_count.
  pose proof (ceil_div_bounds (Z.max (L - V) 1) (C - V) ltac:(lia)).
  pose proof (ceil_div_bounds L (C - V) ltac:(lia)).
  nia.
Qed.

(** ** The chunking loop *)

Section ChunkLoop.

Variable self : TextChunker.
Variable doc : Document.

Let t := page_content doc.
Let L := PyStr.len t.
Let s := stride self.

Let n_chunks := n_chunks self doc.

Lemma L_nonneg : 0 <= L.
Proof. unfold L, PyStr.len. lia. Qed.

Lemma n_chunks_Z : 0 < s -> Z.of_nat n_chunks = ceil_div L s.
Proof.
  intros Hs. unfold n_chunks, Chunker.n_chunks, loop_chunk_count.
  fold t L. change (chunk_size self - overlap self) with s.
  pose proof (ceil_div_bounds L s Hs). pose proof L_nonneg.
  rewrite Z2Nat.id; [reflexivity | nia].
Qed.

(** The loop condition at the start of iteration [k]. *)
Lemma start_lt_len (k : nat) :
  0 < s -> (Z.of_nat k * s < L <-> (k < n_chunks)%nat).
Proof.
  intros Hs. pose proof (n_chunks_Z Hs) as Hn.
  pose proof (ceil_div_bounds L s Hs). split; intros; nia.
Qed.

Lemma n_chunks_le_len : 0 < s -> (n_chunks <= String.length t)%nat.
Proof.
  intros Hs. pose proof (n_chunks_Z Hs) as Hn.
  pose proof (ceil_div_bounds L s Hs). pose proof L_nonneg.
  unfold L, PyStr.len in *. nia.
Qed.

(** *** The loop invariant: after [k] iterations the state is
    [(k * stride, windows k)] *)

Lemma windows_length (n : nat) : length (windows self doc n) = n.
Proof. unfold windows. now rewrite length_map, length_seq. Qed.

Lemma windows_S (n : nat) :
  windows self doc (S n) = windows self doc n ++ [window self doc n].
Proof. unfold windows. now rewrite seq_S, map_app. Qed.

Lemma windows_lookup (n i : nat) :
  (i < n)%nat -> windows self doc n !! i = Some (window self doc i).
Proof.
  intros Hi. unfold windows. rewrite list_lookup_fmap.
  now rewrite lookup_seq_lt.
Qed.

Lemma chunk_loop_windows (fuel k : nat) :
  0 < s -> (k <= n_chunks)%nat -> (n_chunks - k < fuel)%nat ->
  chunk_loop fuel self doc (Z.of_nat k * s) (windows self doc k)
  = Some (windows self doc n_chunks).
Proof.
  intros Hs. revert k. induction fuel as [|fuel IH]; intros k Hk Hf; [lia|].
  cbn [chunk_loop]. fold t L.
  destruct (Z.ltb_spec (Z.of_nat k * s) L) as [Hlt|Hge].
  - apply start_lt_len in Hlt; [|assumption].
    rewrite windows_length.
    replace (Z.of_nat k * s + chunk_size self - overlap self)
      with (Z.of_nat (S k) * s) by (unfold s, stride; lia).
    change (new_doc self doc (Z.of_nat k * s) k) with (window self doc k).
    rewrite <- windows_S. apply IH; lia.
  - assert (k = n_chunks) as ->; [|reflexivity].
    destruct (Nat.eq_dec k n_chunks) as [|Hne]; [assumption|].
    exfalso. assert (Hk' : (k < n_chunks)%nat) by lia.
    apply start_lt_len in Hk'; [lia | assumption].
Qed.

(** With [overlap < chunk_size] the loop ends, and the result is the
    list of the first [n_chunks] windows. *)
Lemma chunk_one_windows :
  overlap self < chunk_size self ->
  chunk_one self doc = Some (windows self doc n_chunks).
Proof.
  intros Hv. assert (Hs : 0 < s) by (unfold s, stride; lia).
  unfold chunk_one, chunk_one_fuel.
  apply (chunk_loop_windows (S (String.length t)) 0 Hs); [lia|].
  pose proof (n_chunks_le_len Hs). lia.
Qed.

(** *** Fuel *)

Lemma chunk_loop_more_fuel (fuel fuel' : nat) (start : Z)
    (res out : list Document) :
  (fuel <= fuel')%nat ->
  chunk_loop fuel self doc start res = Some out ->
  chunk_loop fuel' self doc start res = Some out.
Proof.
  revert fuel' start res.
  induction fuel as [|fuel IH]; intros [|fuel'] start res Hle H;
    simpl in *; try discriminate; try lia.
  destruct (start <? _); [|assumption]. apply IH; [lia | assumption].
Qed.

(** With [chunk_size <= overlap] and a content that is not empty, [start]
    never moves forward, and the loop never ends. *)
Lemma chunk_loop_diverges (fuel : nat) (start : Z) (res : list Document) :
  s <= 0 -> 0 < L -> start <= 0 ->
  chunk_loop fuel self doc start res = None.
Proof.
  intros Hs HL. revert start res.
  induction fuel as [|fuel IH]; intros start res Hst; [reflexivity|].
  cbn [chunk_loop]. fold t L.
  destruct (Z.ltb_spec start L); [|lia].
  apply IH. unfold s, stride in Hs. lia.
Qed.

(** [chunk_one] gives [None] only when the loop runs forever... *)
Lemma chunk_one_complete :
  chunk_one self doc = None ->
  forall fuel, chunk_one_fuel fuel self doc = None.
Proof.
  intros Hnone fuel.
  destruct (Z.lt_ge_cases 0 s) as [Hs|Hs].
  - rewrite chunk_one_windows in Hnone by (unfold s, stride in Hs; lia).
    discriminate.
  - destruct (Z.lt_ge_cases 0 L) as [HL|HL].
    + apply chunk_loop_diverges; lia.
    + unfold chunk_one, chunk_one_fuel in Hnone. cbn [chunk_loop] in Hnone.
      fold t L in Hnone. destruct (Z.ltb_spec 0 L); [lia|discriminate].
Qed.

(** ... and what the loop returns with any fuel, [chunk_one] returns. *)
Lemma chunk_one_sound (fuel : nat) (out : list Document) :
  chunk_one_fuel fuel self doc = Some out -> chunk_one self doc = Some out.
Proof.
  intros H. destruct (chunk_one self doc) as [out'|] eqn:E.
  - unfold chunk_one in E.
    set (big := Nat.max fuel (S (String.length t))).
    assert (H1 : chunk_loop big self doc 0 [] = Some out)
      by (apply (chunk_loop_more_fuel fuel); [lia | exact H]).
    assert (H2 : chunk_loop big self doc 0 [] = Some out')
      by (apply (chunk_loop_more_fuel (S (String.length t))); [lia | exact E]).
    congruence.
  - rewrite (chunk_one_complete E fuel) in H. discriminate.
Qed.

End ChunkLoop.

(** ** Properties of [TextChunker] *)

Section ChunkerClaims.

Import Chunker Examples.

(** C9.  A document whose content is the empty string has no chunk,
    whatever [chunk_size] and [overlap] are: the loop condition
    [0 < len("")] is false at once, so any fuel is enough. *)
Theorem chunk_one_empty (self : TextChunker) (m : gmap string meta_val) :
  chunk_one self (mkDocument "" m) = Some [] /\
  forall fuel, chunk_one_fuel (S fuel) self (mkDocument "" m) = Some [].
Proof. split; [reflexivity | intros fuel; reflexivity]. Qed.

(** The loop of [chunk_docs] appends to its accumulator the chunks of
    each document in turn. *)
Lemma chunk_docs_loop_acc (self : TextChunker) (docs result : list Document) :
  chunk_docs_loop self docs result
  = (fun parts => result ++ List.concat parts)
      <$> mapM (chunk_one self) docs.
Proof.
  revert result. induction docs as [|d docs IH]; intros result; simpl.
  - now rewrite app_nil_r.
  - destruct (chunk_one self d) as [parts|]; simpl; [|reflexivity].
    rewrite IH. destruct (mapM (chunk_one self) docs); simpl;
      [now rewrite app_assoc | reflexivity].
Qed.

(** With [overlap < chunk_size], [chunk_docs] returns for every list of
    documents: the windows of each, one document after the other. *)
Lemma chunk_docs_total (self : TextChunker) (docs : list Document) :
  overlap self < chunk_size self ->
  chunk_docs self docs
  = Some (List.concat
            (List.map (fun d => windows self d (n_chunks self d)) docs)).
Proof.
  intros HV. unfold chunk_docs. rewrite chunk_docs_loop_acc.
  assert (HmapM : mapM (chunk_one self) docs
                  = Some (List.map (fun d => windows self d (n_chunks self d))
                            docs)).
  { induction docs as [|d docs IH]; [reflexivity|]. cbn [mapM List.map].
    rewrite chunk_one_windows by assumption. rewrite IH. reflexivity. }
  now rewrite HmapM.
Qed.

(** C6.  [chunk_docs] is the concatenation of the results of [chunk_one]
    on each document, in the order of the documents and keeping the order
    of the chunks of each; it returns when every [chunk_one] does. *)
Theorem chunk_docs_concat (self : TextChunker) (docs : list Document) :
  chunk_docs self docs = @List.concat Document <$> mapM (chunk_one self) docs.
Proof.
  unfold chunk_docs. rewrite chunk_docs_loop_acc.
  now destruct (mapM (chunk_one self) docs).
Qed.

(** C3.  With [chunk_size > 0] and [overlap < chunk_size], chunk [i] of
    the output is the slice of the content that starts at
    [i * (chunk_size - overlap)] and has at most [chunk_size] characters;
    each chunk starts before the end of the content, and the start that
    follows the last chunk is not before it. *)
Theorem chunk_one_slices (self : TextChunker) (doc : Document) :
  0 < chunk_size self -> overlap self < chunk_size self ->
  exists res,
    chunk_one self doc = Some res /\
    (forall (i : nat) (c : Document), res !! i = Some c ->
       let start := Z.of_nat i * (chunk_size self - overlap self) in
       page_content c
         = PyStr.slice (page_content doc) start (start + chunk_size self) /\
       page_content c
         = substring (Z.to_nat start) (Z.to_nat (chunk_size self))
             (page_content doc) /\
       start < PyStr.len (page_content doc)) /\
    PyStr.len (page_content doc)
      <= Z.of_nat (length res) * (chunk_size self - overlap self).
Proof.
  intros HC HV. exists (windows self doc (n_chunks self doc)).
  assert (Hs : 0 < stride self) by (unfold stride; lia).
  split; [now apply chunk_one_windows|]. split.
  - intros i c Hi start.
    assert (Hlt : (i < n_chunks self doc)%nat).
    { apply lookup_lt_Some in Hi. now rewrite windows_length in Hi. }
    rewrite windows_lookup in Hi by assumption.
    injection Hi as <-. cbn [window new_doc page_content].
    fold (stride self). fold start.
    assert (Hst : start < PyStr.len (page_content doc))
      by (now apply start_lt_len).
    split; [reflexivity|]. split; [|assumption].
    unfold start, stride in *. rewrite slice_substring by nia.
    do 2 f_equal. lia.
  - rewrite windows_length. fold (stride self).
    rewrite (n_chunks_Z self doc Hs).
    apply (ceil_div_bounds _ _ Hs).
Qed.

(** C4.  With [chunk_size > 0] and [overlap < chunk_size], every chunk
    has at most [chunk_size] characters, and the chunk at position [i]
    carries the metadata of the source document with ["chunk"] set to
    [i], counting from 0. *)
Theorem chunk_one_length_meta (self : TextChunker) (doc : Document) :
  0 < chunk_size self -> overlap self < chunk_size self ->
  exists res,
    chunk_one self doc = Some res /\
    forall (i : nat) (c : Document), res !! i = Some c ->
      PyStr.len (page_content c) <= chunk_size self /\
      metadata c = <["chunk" := MInt (Z.of_nat i)]> (metadata doc).
Proof.
  intros HC HV. exists (windows self doc (n_chunks self doc)).
  split; [now apply chunk_one_windows|].
  intros i c Hi.
  assert (Hlt : (i < n_chunks self doc)%nat).
  { apply lookup_lt_Some in Hi. now rewrite windows_length in Hi. }
  rewrite windows_lookup in Hi by assumption.
  injection Hi as <-. cbn [window new_doc page_content metadata].
  split; [|reflexivity].
  apply slice_length_le; [unfold stride; nia | lia].
Qed.

Lemma chunk_one_slices_witness :
  let self := mkTextChunker 3 1 in
  let doc := doc_of "abcdefg" in
  0 < chunk_size self /\ overlap self < chunk_size self /\
  exists res,
    chunk_one self doc = Some res /\
    (forall (i : nat) (c : Document), res !! i = Some c ->
       let start := Z.of_nat i * (chunk_size self - overlap self) in
       page_content c
         = PyStr.slice (page_content doc) start (start + chunk_size self) /\
       page_content c
         = substring (Z.to_nat start) (Z.to_nat (chunk_size self))
             (page_content doc) /\
       start < PyStr.len (page_content doc)) /\
    PyStr.len (page_content doc)
      <= Z.of_nat (length res) * (chunk_size self - overlap self).
Proof.
  intros self doc. split; [reflexivity|]. split; [reflexivity|].
  apply (chunk_one_slices self doc); reflexivity.
Defined.

Lemma chunk_one_length_meta_witness :
  let self := mkTextChunker 3 1 in
  let doc := mkDocument "abcdefg" {["name" := MStr "a.txt"]} in
  0 < chunk_size self /\ overlap self < chunk_size self /\
  exists res,
    chunk_one self doc = Some res /\
    forall (i : nat) (c : Document), res !! i = Some c ->
      PyStr.len (page_content c) <= chunk_size self /\
      metadata c = <["chunk" := MInt (Z.of_nat i)]> (metadata doc).
Proof.
  intros self doc. split; [reflexivity|]. split; [reflexivity|].
  apply (chunk_one_length_meta self doc); reflexivity.
Defined.

(** C1 as stated fails.  With [chunk_size = 4] and [overlap = 2] the
    4-character content "abcd" gives the two chunks "abcd" and "cd": the
    loop runs again from [start = 2 < 4].  The stated count
    [ceil(max(4 - 2, 1) / (4 - 2))] is 1. *)
Lemma chunk_count_counterexample :
  let self := mkTextChunker 4 2 in
  let doc := doc_of "abcd" in
  (0 <= overlap self < chunk_size self) /\
  page_content doc <> "" /\
  contents (chunk_one self doc) = Some ["abcd"; "cd"] /\
  exists res,
    chunk_one self doc = Some res /\
    Z.of_nat (length res)
    <> spec_chunk_count (PyStr.len (page_content doc))
         (chunk_size self) (overlap self).
Proof.
  intros self doc. split; [split; [discriminate | reflexivity]|].
  split; [discriminate|]. split; [reflexivity|].
  destruct (chunk_one self doc) as [res|] eqn:E; [|discriminate E].
  exists res. split; [reflexivity|].
  vm_compute in E. injection E as <-. vm_compute. discriminate.
Qed.

(** C1, amended.  For a content of [L > 0] characters and
    [0 <= overlap < chunk_size], [chunk_one] returns
    [ceil(L / (chunk_size - overlap))] chunks, and the last chunk is the
    rest of the content: the content is the [(n - 1) * (chunk_size -
    overlap)] characters before the last window followed by the last
    chunk. *)
Theorem chunk_one_count (self : TextChunker) (doc : Document) :
  0 <= overlap self < chunk_size self ->
  page_content doc <> "" ->
  exists res lst pre,
    chunk_one self doc = Some res /\
    Z.of_nat (length res)
      = loop_chunk_count (PyStr.len (page_content doc))
          (chunk_size self) (overlap self) /\
    last res = Some lst /\
    page_content doc = pre +:+ page_content lst /\
    PyStr.len pre
      = (Z.of_nat (length res) - 1) * (chunk_size self - overlap self).
Proof.
  intros HV Hne.
  assert (Hs : 0 < stride self) by (unfold stride; lia).
  pose proof (n_chunks_Z self doc Hs) as Hn.
  pose proof (ceil_div_bounds (PyStr.len (page_content doc)) _ Hs) as Hb.
  assert (HL : 0 < PyStr.len (page_content doc)).
  { unfold PyStr.len. destruct (page_content doc); [congruence|simpl; lia]. }
  destruct (n_chunks self doc) as [|n] eqn:En; [nia|].
  set (k := Z.of_nat n * stride self) in *.
  assert (Hk : 0 <= k < PyStr.len (page_content doc)) by (unfold k; nia).
  exists (windows self doc (S n)), (window self doc n),
    (substring 0 (Z.to_nat k) (page_content doc)).
  split; [rewrite <- En; apply chunk_one_windows; lia|].
  split; [rewrite windows_length; exact Hn|].
  split; [rewrite windows_S; apply last_snoc|].
  rewrite windows_length. cbn [window new_doc page_content]. fold k.
  rewrite slice_substring by lia.
  unfold PyStr.len in *. split.
  - apply substring_suffix; unfold stride in *; lia.
  - rewrite substring_length. unfold k, stride in *. lia.
Qed.

Lemma chunk_one_count_witness :
  let self := mkTextChunker 4 2 in
  let doc := doc_of "abcd" in
  (0 <= overlap self < chunk_size self) /\
  page_content doc <> "" /\
  exists res lst pre,
    chunk_one self doc = Some res /\
    Z.of_nat (length res)
      = loop_chunk_count (PyStr.len (page_content doc))
          (chunk_size self) (overlap self) /\
    last res = Some lst /\
    page_content doc = pre +:+ page_content lst /\
    PyStr.len pre
      = (Z.of_nat (length res) - 1) * (chunk_size self - overlap self).
Proof.
  intros self doc. split; [split; [discriminate | reflexivity]|].
  split; [discriminate|].
  apply (chunk_one_count self doc);
    [split; [discriminate | reflexivity] | discriminate].
Defined.

(** C2 as stated fails.  With [chunk_size = 4] and [overlap = 2] the
    3-character content "abc" is shorter than [chunk_size] and gives two
    chunks, "abc" and "c": the second iteration starts at
    [4 - 2 = 2 < 3]. *)
Lemma short_doc_counterexample :
  let self := mkTextChunker 4 2 in
  let doc := doc_of "abc" in
  (0 < PyStr.len (page_content doc) < chunk_size self) /\
  contents (chunk_one self doc) = Some ["abc"; "c"] /\
  ~ exists c, chunk_one self doc = Some [c].
Proof.
  intros self doc. split; [split; reflexivity|]. split; [reflexivity|].
  intros [c Hc]. vm_compute in Hc. discriminate Hc.
Qed.

(** The same with the default configuration (1000, 200): every content
    of more than 800 and fewer than 1000 characters gives two chunks. *)
Lemma short_doc_default (doc : Document) :
  800 < PyStr.len (page_content doc) < 1000 ->
  exists c0 c1,
    chunk_one default doc = Some [c0; c1] /\
    page_content c0 = page_content doc.
Proof.
  intros HL.
  assert (Hn : n_chunks default doc = 2%nat).
  { unfold n_chunks, loop_chunk_count.
    rewrite (ceil_div_unique _ _ 2); simpl; [reflexivity | lia | lia]. }
  exists (window default doc 0), (window default doc 1). split.
  - rewrite chunk_one_windows by (simpl; lia). now rewrite Hn.
  - cbn [window new_doc page_content]. rewrite slice_substring by (simpl; lia).
    apply substring_whole. unfold PyStr.len in HL. simpl. lia.
Qed.

(** The first window of a content shorter than [chunk_size] is the whole
    content. *)
Lemma window_0_whole (self : TextChunker) (doc : Document) :
  PyStr.len (page_content doc) < chunk_size self ->
  window self doc 0
  = mkDocument (page_content doc) (<["chunk" := MInt 0]> (metadata doc)).
Proof.
  intros HL. unfold window, new_doc. f_equal.
  rewrite slice_substring by (unfold PyStr.len in HL; lia).
  apply substring_whole. unfold PyStr.len in HL. lia.
Qed.

(** C2, amended.  For a content of [L] characters with
    [0 < L < chunk_size], [chunk_one] returns exactly one chunk if and
    only if [L <= chunk_size - overlap], and that chunk is the whole
    content, with ["chunk"] set to 0 in its metadata; whenever [chunk_one]
    returns, its first chunk is the whole content. *)
Theorem chunk_one_short_doc (self : TextChunker) (doc : Document) :
  0 < PyStr.len (page_content doc) < chunk_size self ->
  let whole :=
    mkDocument (page_content doc) (<["chunk" := MInt 0]> (metadata doc)) in
  ((exists c, chunk_one self doc = Some [c])
   <-> PyStr.len (page_content doc) <= chunk_size self - overlap self) /\
  (PyStr.len (page_content doc) <= chunk_size self - overlap self ->
   chunk_one self doc = Some [whole]) /\
  (forall res, chunk_one self doc = Some res -> res !! 0%nat = Some whole).
Proof.
  intros HL whole.
  assert (Hdiv : stride self <= 0 -> chunk_one self doc = None).
  { intros Hs. apply chunk_loop_diverges; [assumption | lia | lia]. }
  assert (Hone : PyStr.len (page_content doc)
                 <= chunk_size self - overlap self ->
            chunk_one self doc = Some [whole]).
  { intros Hle.
    assert (Hn : n_chunks self doc = 1%nat).
    { unfold n_chunks, loop_chunk_count.
      rewrite (ceil_div_unique _ _ 1); [reflexivity | lia | lia]. }
    rewrite chunk_one_windows by lia. rewrite Hn.
    cbn [windows seq List.map]. now rewrite window_0_whole by lia. }
  split; [|split; [exact Hone|]].
  - split.
    + intros [c Hc].
      destruct (Z.lt_ge_cases 0 (stride self)) as [Hs|Hs];
        [|rewrite Hdiv in Hc by assumption; discriminate].
      rewrite chunk_one_windows in Hc by (unfold stride in Hs; lia).
      assert (Hlen : n_chunks self doc = 1%nat).
      { apply (f_equal (fun o => length <$> o)) in Hc. simpl in Hc.
        rewrite windows_length in Hc. now injection Hc. }
      pose proof (n_chunks_Z self doc Hs) as Hn. rewrite Hlen in Hn.
      pose proof (ceil_div_bounds (PyStr.len (page_content doc)) _ Hs) as Hb.
      rewrite <- Hn in Hb. unfold stride in Hb. lia.
    + intros Hle. eexists. now apply Hone.
  - intros res Hres.
    destruct (Z.lt_ge_cases 0 (stride self)) as [Hs|Hs];
      [|rewrite Hdiv in Hres by assumption; discriminate].
    rewrite chunk_one_windows in Hres by (unfold stride in Hs; lia).
    injection Hres as <-.
    pose proof (n_chunks_Z self doc Hs) as Hn.
    pose proof (ceil_div_bounds (PyStr.len (page_content doc)) _ Hs) as Hb.
    rewrite windows_lookup by nia. now rewrite window_0_whole by lia.
Qed.

Lemma chunk_one_short_doc_witness :
  let self := mkTextChunker 4 2 in
  let doc := doc_of "ab" in
  let whole :=
    mkDocument (page_content doc) (<["chunk" := MInt 0]> (metadata doc)) in
  (0 < PyStr.len (page_content doc) < chunk_size self) /\
  ((exists c, chunk_one self doc = Some [c])
   <-> PyStr.len (page_content doc) <= chunk_size self - overlap self) /\
  (PyStr.len (page_content doc) <= chunk_size self - overlap self ->
   chunk_one self doc = Some [whole]) /\
  (forall res, chunk_one self doc = Some res -> res !! 0%nat = Some whole).
Proof.
  intros self doc whole. split; [split; reflexivity|].
  apply (chunk_one_short_doc self doc). split; reflexivity.
Defined.

End ChunkerClaims.

(** ** Properties of the loaders *)

Section LoaderFacts.

Import PyBuiltins Loaders.

Variable k : loader_kind.
Variable w : World.

Lemma load_loop_filter (paths : list string) (out : list Document) :
  load_loop k w paths out = load_loop k w (List.filter (matching k) paths) out.
Proof.
  revert out. induction paths as [|p paths IH]; intros out; [reflexivity|].
  cbn [load_loop List.filter]. unfold matching at 1.
  destruct (_ext_ok p (ext k)) eqn:E; cbn [negb load_loop].
  - rewrite E. cbn [negb].
    destruct (load_path k w p); [reflexivity | apply IH].
  - apply IH.
Qed.

Lemma load_loop_none_match (paths : list string) (out : list Document) :
  (forall p, p ∈ paths -> matching k p = false) ->
  load_loop k w paths out = inr out.
Proof.
  revert out. induction paths as [|p paths IH]; intros out H; [reflexivity|].
  cbn [load_loop]. fold (matching k p).
  rewrite (H p) by (apply list_elem_of_here). cbn [negb].
  apply IH. intros q Hq. apply H. now apply list_elem_of_further.
Qed.

Lemma row_docs_path (p : string) (rows : list (list (string * string)))
    (i : nat) (d : Document) :
  d ∈ row_docs p i rows -> metadata d !! "path" = Some (MStr p).
Proof.
  revert i. induction rows as [|row rows IH]; intros i Hd; simpl in Hd.
  - now apply not_elem_of_nil in Hd.
  - apply elem_of_cons in Hd as [-> | Hd]; [reflexivity | eauto].
Qed.

(** Every document that the loop body makes for a path carries it. *)
Lemma load_path_path (p : string) (docs : list Document) (d : Document) :
  load_path k w p = inr docs -> d ∈ docs ->
  metadata d !! "path" = Some (MStr p).
Proof.
  unfold load_path. intros H Hd. destruct k.
  - destruct (read_pdf w p); [discriminate|].
    destruct (String.eqb _ ""); injection H as <-.
    + now apply not_elem_of_nil in Hd.
    + apply list_elem_of_singleton in Hd as ->. reflexivity.
  - destruct (read_text w p); [discriminate|]. injection H as <-.
    apply list_elem_of_singleton in Hd as ->. reflexivity.
  - destruct (read_csv w p); [discriminate|]. injection H as <-.
    eapply row_docs_path, Hd.
Qed.

Lemma load_loop_paths (paths : list string) (out docs : list Document)
    (d : Document) :
  load_loop k w paths out = inr docs -> d ∈ docs ->
  d ∈ out \/
  exists p, p ∈ paths /\ matching k p = true /\
            metadata d !! "path" = Some (MStr p).
Proof.
  revert out. induction paths as [|p paths IH]; intros out H Hd.
  - injection H as <-. now left.
  - cbn [load_loop] in H. fold (matching k p) in H.
    destruct (matching k p) eqn:E; cbn [negb] in H.
    + destruct (load_path k w p) as [|new] eqn:El; [discriminate|].
      destruct (IH _ H Hd) as [Hin | (q & Hq & Hm & Hp)].
      * apply elem_of_app in Hin as [Hin | Hin]; [now left|].
        right. exists p. split; [apply list_elem_of_here|].
        split; [assumption|]. eapply load_path_path; eauto.
      * right. exists q. split; [now apply list_elem_of_further | auto].
    + destruct (IH _ H Hd) as [Hin | (q & Hq & Hm & Hp)]; [now left|].
      right. exists q. split; [now apply list_elem_of_further | auto].
Qed.

End LoaderFacts.

Section LoaderClaims.

Import PyBuiltins Loaders Examples.

(** C7.  For each of the three loaders, [load] on a list of paths is
    [load] on the paths that pass the extension test, which compares the
    lower-cased path with the loader's extension: the documents, the
    count and any exception come from the matching paths alone.  Every
    document of the output carries a matching path of the input.  When no
    path matches, [load] returns no document and raises nothing on their
    account (the PDF loader still needs [pypdf] to import). *)
Theorem load_skips_non_matching (k : loader_kind) (self : DocumentLoader)
    (w : World) (paths : list string) :
  load k self w paths = load k self w (List.filter (matching k) paths) /\
  (forall docs self' d,
     load k self w paths = inr (docs, self') -> d ∈ docs ->
     exists p, p ∈ paths /\ _ext_ok p (ext k) = true /\
               metadata d !! "path" = Some (MStr p)) /\
  (forall p q, lower p = lower q -> _ext_ok p (ext k) = _ext_ok q (ext k)) /\
  ((forall p, p ∈ paths -> _ext_ok p (ext k) = false) ->
   load k self w paths
   = if bool_decide (k = PDFLoader) && negb (pypdf_installed w)
     then inl (mkExn "ImportError" "need pypdf")
     else inr ([], self)).
Proof.
  repeat split.
  - unfold load. now rewrite load_loop_filter.
  - intros docs self' d H Hd. unfold load in H.
    destruct (match k with PDFLoader => _ | _ => _ end); [discriminate|].
    destruct (load_loop k w paths []) as [|out] eqn:E; [discriminate|].
    injection H as <- _.
    destruct (load_loop_paths k w _ _ _ _ E Hd) as [Hin | Hp];
      [now apply not_elem_of_nil in Hin | exact Hp].
  - intros p q Hpq. unfold _ext_ok. now rewrite Hpq.
  - intros H. unfold load.
    rewrite (load_loop_none_match k w paths [] H). cbn [length].
    replace (_add self (Z.of_nat 0)) with self
      by (destruct self as [c]; unfold _add; cbn; f_equal; lia).
    destruct k; cbn; try reflexivity.
Qed.

Lemma load_skips_non_matching_witness :
  let paths := ["x.pdf"; "notes/A.TXT"; "data.csv"; "txt"] in
  load TXTLoader init one_txt_world paths
  = inr ([mkDocument "hello" (file_meta "notes/A.TXT" "txt")],
         mkDocumentLoader 1) /\
  load TXTLoader init one_txt_world paths
  = load TXTLoader init one_txt_world ["notes/A.TXT"] /\
  load CSVLoader init one_txt_world ["x.pdf"; "notes/A.TXT"; "txt"]
  = inr ([], init).
Proof.
  intros paths. split; [reflexivity|]. split.
  - exact (proj1 (load_skips_non_matching TXTLoader init one_txt_world paths)).
  - apply (load_skips_non_matching CSVLoader init one_txt_world).
    intros p Hp. repeat (apply elem_of_cons in Hp as [-> | Hp];
                         [reflexivity|]).
    now apply not_elem_of_nil in Hp.
Defined.

End LoaderClaims.

(** ** Properties of [OllamaEmbedder] *)

Section EmbedderClaims.

Import PyBuiltins Retriever Examples.

(** C8.  [embed_query] sends exactly one request: a POST to
    [base_url + "/api/embeddings"] whose JSON body has the two fields
    ["model"] and ["prompt"] and no other.  From a 200 response whose
    body is a JSON object it returns the ["embedding"] field (the empty
    list when there is none).  When the connection fails, that is when
    [urlopen] raises [URLError], it returns nothing and raises a plain
    [Exception] whose message names the server. *)
Theorem embed_query_protocol (self : OllamaEmbedder) (net : Network)
    (text : string) :
  let req := embedding_request self text in
  fst (embed_query self net text) = [req] /\
  get_method req = "POST" /\
  req_url req = base_url self +:+ "/api/embeddings" /\
  (exists payload,
     req_data req = Some (JObj payload) /\
     List.map fst payload = ["model"; "prompt"] /\
     dict_lookup payload "model" = Some (JStr (model self)) /\
     dict_lookup payload "prompt" = Some (JStr text)) /\
  (forall items,
     net req = inr (mkResponse 200 (inr (JObj items))) ->
     snd (embed_query self net text)
     = inr (match dict_lookup items "embedding" with
            | Some v => v
            | None => JArr []
            end)) /\
  (forall e,
     net req = inl e -> is_URLError e = true ->
     snd (embed_query self net text)
     = inl (mkExn "Exception"
              ("Failed to connect to Ollama at " +:+ base_url self
               +:+ ": " +:+ exn_msg e))).
Proof.
  intros req. split; [reflexivity|]. split; [reflexivity|].
  split; [reflexivity|]. split.
  - eexists. repeat split; reflexivity.
  - split.
    + intros items H. unfold embed_query, _get_embedding. cbn [snd].
      fold req. now rewrite H.
    + intros e H He. unfold embed_query, _get_embedding. cbn [snd].
      fold req. rewrite H. cbn [try_body except_URLError].
      now rewrite He.
Qed.

Lemma embed_query_protocol_witness :
  snd (embed_query default net_down "hello")
  = inl (mkExn "Exception"
           "Failed to connect to Ollama at http://localhost:11434: <urlopen error [Errno 111] Connection refused>") /\
  snd (embed_query default
         (net_answers (JObj [("embedding", JArr [JInt 1; JInt 2])])) "hello")
  = inr (JArr [JInt 1; JInt 2]).
Proof.
  split.
  - destruct (embed_query_protocol default net_down "hello")
      as (_ & _ & _ & _ & _ & Hfail).
    exact (Hfail _ eq_refl eq_refl).
  - destruct (embed_query_protocol default
                (net_answers (JObj [("embedding", JArr [JInt 1; JInt 2])]))
                "hello") as (_ & _ & _ & _ & Hok & _).
    exact (Hok _ eq_refl).
Defined.

(** C10.  A response with status 200 whose body is a JSON object
    without an ["embedding"] key makes [embed_query] return the empty
    list, and raise nothing. *)
Theorem embed_query_missing_key (self : OllamaEmbedder) (net : Network)
    (text : string) (items : list (string * json)) :
  net (embedding_request self text)
    = inr (mkResponse 200 (inr (JObj items))) ->
  dict_lookup items "embedding" = None ->
  snd (embed_query self net text) = inr (JArr []).
Proof.
  intros Hnet Hkey. unfold embed_query, _get_embedding. cbn [snd].
  rewrite Hnet. cbn [try_body status body Z.eqb negb get except_URLError].
  now rewrite Hkey.
Qed.

Lemma embed_query_missing_key_witness :
  let net := net_answers (JObj [("error", JStr "model not found")]) in
  net (embedding_request default "hello")
    = inr (mkResponse 200 (inr (JObj [("error", JStr "model not found")]))) /\
  dict_lookup [("error", JStr "model not found")] "embedding" = None /\
  snd (embed_query default net "hello") = inr (JArr []).
Proof.
  intros net. split; [reflexivity|]. split; [reflexivity|].
  apply (embed_query_missing_key default net "hello"
           [("error", JStr "model not found")]); reflexivity.
Defined.

End EmbedderClaims.

(** ** Properties of the indexing engine *)

Section EngineClaims.

Import PyBuiltins Chunker Loaders Engine Examples.

(** A path that is in a set is in the list of its elements once. *)
Lemma gset_elements_once (x : string) (X : gset string) :
  x ∈ X ->
  length (List.filter (String.eqb x) (elements X)) = 1%nat.
Proof.
  intros Hx. apply elem_of_elements in Hx.
  pose proof (NoDup_elements X) as Hnd.
  induction Hnd as [|y l Hy Hnd IH]; [now apply not_elem_of_nil in Hx|].
  cbn [List.filter]. destruct (String.eqb_spec x y) as [->|Hne].
  - cbn [length]. f_equal.
    clear -Hy. induction l as [|z l IH]; [reflexivity|].
    cbn [List.filter]. destruct (String.eqb_spec y z) as [->|_].
    + exfalso. apply Hy, list_elem_of_here.
    + apply IH. intros H. apply Hy. now apply list_elem_of_further.
  - apply IH. apply elem_of_cons in Hx as [Hx|Hx]; [contradiction|exact Hx].
Qed.

(** A call of [index] without [force_reindex] that returns chunks
    leaves the absolute path in [_indexed_files]. *)
Lemma index_returns_indexed (env : Env) (e e1 : IndexingEngine)
    (path : string) (meta : gmap string meta_val)
    (chunks : list Document) :
  index env e path meta false = Some (inr chunks, e1) ->
  _validate_file env path = None /\
  abspath env path ∈ _indexed_files e1.
Proof.
  unfold index. intros H.
  destruct (_validate_file env path); [discriminate|].
  split; [reflexivity|]. cbn [negb andb] in H.
  unfold _check_duplicate in H.
  destruct (bool_decide_reflect (abspath env path ∈ _indexed_files e))
    as [Hin|Hnotin].
  - injection H as _ <-. exact Hin.
  - destruct (_get_loader path); [|discriminate].
    destruct (load _ _ _ _) as [|[docs ?]]; [discriminate|].
    destruct (chunk_all e meta docs); [|discriminate].
    destruct (store_rejects env _ _); [discriminate|].
    injection H as _ <-. cbn. set_solver.
Qed.

(** C5.  When a call of [index] on a path without [force_reindex] has
    returned its chunks, a second such call on the same path returns the
    empty list and raises nothing; [_indexed_files] is unchanged and
    holds the absolute path exactly once; the only change is one more
    history record, for the skip. *)
Theorem index_twice_skips (env : Env) (e e1 : IndexingEngine)
    (path : string) (meta meta' : gmap string meta_val)
    (chunks : list Document) :
  index env e path meta false = Some (inr chunks, e1) ->
  exists e2,
    index env e1 path meta' false = Some (inr [], e2) /\
    _indexed_files e2 = _indexed_files e1 /\
    abspath env path ∈ _indexed_files e2 /\
    length (List.filter (String.eqb (abspath env path))
              (elements (_indexed_files e2))) = 1%nat /\
    _indexing_history e2
      = _indexing_history e1
        ++ [mkEntry path Skipped
              (clock env (length (_indexing_history e1)))] /\
    _failed_files e2 = _failed_files e1 /\
    vector_store e2 = vector_store e1.
Proof.
  intros H. apply index_returns_indexed in H as [Hval Hin].
  eexists. split.
  - unfold index. rewrite Hval. cbn [negb andb].
    unfold _check_duplicate. rewrite bool_decide_eq_true_2 by exact Hin.
    reflexivity.
  - cbn. repeat split; auto using gset_elements_once.
Qed.

Lemma index_twice_skips_witness :
  exists chunks e1,
    index demo_env demo_engine "notes/A.TXT" ∅ false
      = Some (inr chunks, e1) /\
    List.map page_content chunks = ["hell"; "llo"; "o"] /\
    exists e2,
      index demo_env e1 "notes/A.TXT" ∅ false = Some (inr [], e2) /\
      _indexed_files e2 = _indexed_files e1 /\
      abspath demo_env "notes/A.TXT" ∈ _indexed_files e2 /\
      length (List.filter (String.eqb (abspath demo_env "notes/A.TXT"))
                (elements (_indexed_files e2))) = 1%nat /\
      _indexing_history e2
        = _indexing_history e1
          ++ [mkEntry "notes/A.TXT" Skipped
                (clock demo_env (length (_indexing_history e1)))] /\
      _failed_files e2 = _failed_files e1 /\
      vector_store e2 = vector_store e1.
Proof.
  destruct (index demo_env demo_engine "notes/A.TXT" ∅ false)
    as [[[err|chunks] e1]|] eqn:E;
    try (vm_compute in E; discriminate E).
  exists chunks, e1. split; [reflexivity|]. split.
  - vm_compute in E. injection E as <- _. reflexivity.
  - exact (index_twice_skips demo_env demo_engine e1 "notes/A.TXT" ∅ ∅
             chunks E).
Defined.

End EngineClaims.

(** * Further properties *)

(** ** Strings as lists of characters *)

#[local] Abbreviation chars := list_ascii_of_string.

Section Chars.

Local Open Scope nat_scope.

Lemma chars_length (s : string) : length (chars s) = String.length s.
Proof. induction s as [|c s IH]; simpl; auto. Qed.

Lemma chars_app (a b : string) : chars (a +:+ b) = chars a ++ chars b.
Proof. induction a as [|c a IH]; simpl; [reflexivity | now rewrite IH]. Qed.

Lemma chars_inj (a b : string) : chars a = chars b -> a = b.
Proof.
  intros H. rewrite <- (string_of_list_ascii_of_string a),
    <- (string_of_list_ascii_of_string b). now rewrite H.
Qed.

Lemma chars_substring (n m : nat) (s : string) :
  chars (substring n m s) = take m (drop n (chars s)).
Proof.
  revert n m. induction s as [|c s IH]; intros [|n] [|m]; simpl;
    try reflexivity.
  - now rewrite IH.
  - now rewrite IH.
  - now rewrite IH.
Qed.

Lemma chars_str_drop (n : nat) (s : string) :
  chars (ChunkViews.str_drop n s) = drop n (chars s).
Proof.
  unfold ChunkViews.str_drop. rewrite chars_substring.
  apply take_ge. rewrite length_drop, chars_length. lia.
Qed.

Lemma chars_join_all (l : list string) :
  chars (ChunkViews.join_all l) = List.concat (List.map chars l).
Proof.
  induction l as [|x l IH]; simpl; [reflexivity|].
  now rewrite chars_app, IH.
Qed.

End Chars.

(** ** More on [TextChunker] *)

Section MoreChunker.

Import Chunker ChunkViews Examples.

Variable self : TextChunker.
Variable doc : Document.

(** The characters of window [i]: at most [chunk_size] characters from
    position [i * stride]. *)
Lemma window_chars (i : nat) :
  0 <= chunk_size self -> overlap self < chunk_size self ->
  chars (page_content (window self doc i))
  = take (Z.to_nat (chunk_size self))
      (drop (i * Z.to_nat (stride self)) (chars (page_content doc))).
Proof.
  intros HC HV. unfold window, new_doc. cbn [page_content].
  assert (Hs : 0 < stride self) by (unfold stride; lia).
  rewrite slice_substring by nia. rewrite chars_substring.
  f_equal; [lia|]. f_equal.
  rewrite Z2Nat.inj_mul by lia. now rewrite Nat2Z.id.
Qed.

Lemma rebuild_snoc (v : nat) (l : list string) (c : string) :
  l <> [] ->
  chars (rebuild v (l ++ [c])) = chars (rebuild v l) ++ drop v (chars c).
Proof.
  destruct l as [|x l]; [congruence|]. intros _. cbn [rebuild app].
  rewrite !chars_app, !chars_join_all, List.map_app, List.map_app.
  rewrite List.concat_app. cbn [List.map List.concat].
  now rewrite chars_str_drop, app_nil_r, app_assoc.
Qed.

(** The first [m + 1] windows stand for the first [m * stride +
    chunk_size] characters of the content. *)
Lemma rebuild_windows (m : nat) :
  0 <= overlap self < chunk_size self ->
  chars (rebuild (Z.to_nat (overlap self))
           (List.map page_content (windows self doc (S m))))
  = take (m * Z.to_nat (stride self) + Z.to_nat (chunk_size self))
      (chars (page_content doc)).
Proof.
  intros HV. induction m as [|m IH].
  - cbn [windows seq List.map rebuild ChunkViews.join_all].
    rewrite chars_app, window_chars by lia. cbn. now rewrite app_nil_r.
  - rewrite windows_S, List.map_app. cbn [List.map].
    rewrite rebuild_snoc
      by (intros H; apply (f_equal length) in H;
          rewrite length_map, windows_length in H; discriminate H).
    rewrite IH, window_chars by lia.
    set (l := chars (page_content doc)).
    set (sN := Z.to_nat (stride self)).
    set (CN := Z.to_nat (chunk_size self)).
    set (VN := Z.to_nat (overlap self)).
    assert (HCN : CN = (VN + sN)%nat) by (unfold CN, VN, sN, stride; lia).
    rewrite HCN at 2. rewrite <- take_drop_commute, drop_drop.
    replace (S m * sN + VN)%nat with (m * sN + CN)%nat by lia.
    rewrite take_take_drop. f_equal. lia.
Qed.

(** X1.  Round trip.  With [0 <= overlap < chunk_size] the chunks lose
    nothing: the first chunk followed by every other chunk without its
    first [overlap] characters is the content of the document. *)
Theorem chunk_one_rebuild :
  0 <= overlap self < chunk_size self ->
  exists res,
    chunk_one self doc = Some res /\
    rebuild (Z.to_nat (overlap self)) (List.map page_content res)
    = page_content doc.
Proof.
  intros HV. exists (windows self doc (n_chunks self doc)).
  split; [apply chunk_one_windows; lia|].
  assert (Hs : 0 < stride self) by (unfold stride; lia).
  pose proof (n_chunks_Z self doc Hs) as Hn.
  pose proof (ceil_div_bounds (PyStr.len (page_content doc)) _ Hs) as Hb.
  unfold PyStr.len in *.
  destruct (n_chunks self doc) as [|m].
  - destruct (page_content doc); [reflexivity | simpl in *; lia].
  - apply chars_inj. rewrite rebuild_windows by assumption.
    apply take_ge. rewrite chars_length. unfold stride in *. nia.
Qed.


(** X2.  With [chunk_size > 0] and [overlap < chunk_size], chunk [i] has
    exactly [min(chunk_size, L - i * (chunk_size - overlap))] characters,
    where [L] is the length of the content; no chunk is empty. *)
Theorem chunk_one_lengths :
  0 < chunk_size self -> overlap self < chunk_size self ->
  exists res,
    chunk_one self doc = Some res /\
    forall (i : nat) (c : Document), res !! i = Some c ->
      PyStr.len (page_content c)
      = Z.min (chunk_size self)
          (PyStr.len (page_content doc)
           - Z.of_nat i * (chunk_size self - overlap self)) /\
      0 < PyStr.len (page_content c).
Proof.
  intros HC HV. exists (windows self doc (n_chunks self doc)).
  split; [now apply chunk_one_windows|].
  intros i c Hi.
  assert (Hs : 0 < stride self) by (unfold stride; lia).
  assert (Hlt : (i < n_chunks self doc)%nat).
  { apply lookup_lt_Some in Hi. now rewrite windows_length in Hi. }
  rewrite windows_lookup in Hi by assumption. injection Hi as <-.
  apply (start_lt_len self doc i Hs) in Hlt.
  unfold PyStr.len in *. rewrite <- !chars_length.
  rewrite window_chars by lia.
  rewrite length_take, length_drop, chars_length.
  unfold stride in *.
  assert (Hmul : Z.of_nat (i * Z.to_nat (chunk_size self - overlap self))
                 = Z.of_nat i * (chunk_size self - overlap self))
    by (rewrite Nat2Z.inj_mul, Z2Nat.id; lia).
  lia.
Qed.

(** X3.  With [0 <= overlap < chunk_size], two consecutive chunks share
    their overlap: the characters of chunk [i] from position
    [chunk_size - overlap] on are the first [overlap] characters of chunk
    [i + 1] (fewer when the content ends before). *)
Theorem chunk_one_overlap_shared :
  0 <= overlap self < chunk_size self ->
  exists res,
    chunk_one self doc = Some res /\
    forall (i : nat) (c c' : Document),
      res !! i = Some c -> res !! S i = Some c' ->
      substring (Z.to_nat (chunk_size self - overlap self))
        (Z.to_nat (overlap self)) (page_content c)
      = substring 0 (Z.to_nat (overlap self)) (page_content c').
Proof.
  intros HV. exists (windows self doc (n_chunks self doc)).
  split; [apply chunk_one_windows; lia|].
  intros i c c' Hi Hi'.
  assert (Hlt : (S i < n_chunks self doc)%nat).
  { apply lookup_lt_Some in Hi'. now rewrite windows_length in Hi'. }
  rewrite windows_lookup in Hi by lia.
  rewrite windows_lookup in Hi' by lia.
  injection Hi as <-. injection Hi' as <-.
  apply chars_inj. rewrite !chars_substring, !window_chars by lia.
  fold (stride self).
  set (l := chars (page_content doc)).
  set (sN := Z.to_nat (stride self)).
  set (CN := Z.to_nat (chunk_size self)).
  set (VN := Z.to_nat (overlap self)).
  assert (HCN : CN = (sN + VN)%nat) by (unfold CN, VN, sN, stride; lia).
  rewrite drop_0, take_take.
  rewrite HCN at 1. rewrite <- take_drop_commute, take_take, drop_drop.
  replace (Nat.min VN VN) with VN by lia.
  replace (Nat.min VN CN) with VN by lia.
  f_equal. f_equal. lia.
Qed.

(** X4.  [chunk_one] returns exactly when the content is empty or
    [overlap < chunk_size]; otherwise the loop never ends, whatever the
    fuel. *)
Theorem chunk_one_returns_iff :
  (exists fuel res, chunk_one_fuel fuel self doc = Some res)
  <-> (page_content doc = "" \/ overlap self < chunk_size self).
Proof.
  split.
  - intros (fuel & res & H).
    destruct (Z.lt_ge_cases (overlap self) (chunk_size self)) as [|Hge];
      [now right|].
    destruct (page_content doc) as [|c t] eqn:Et; [now left|].
    unfold chunk_one_fuel in H.
    rewrite chunk_loop_diverges in H; [discriminate | | | lia].
    + unfold stride. lia.
    + rewrite Et. unfold PyStr.len. simpl. lia.
  - intros [He|HV].
    + exists 1%nat, []. unfold chunk_one_fuel. cbn [chunk_loop].
      now rewrite He.
    + eexists _, _. apply chunk_one_windows. exact HV.
Qed.

End MoreChunker.

Section MoreChunkerWitnesses.

Import Chunker ChunkViews Examples.

Lemma chunk_one_rebuild_witness :
  let self := mkTextChunker 4 2 in
  let doc := doc_of "abcdefg" in
  (0 <= overlap self < chunk_size self) /\
  exists res,
    chunk_one self doc = Some res /\
    rebuild (Z.to_nat (overlap self)) (List.map page_content res)
    = page_content doc.
Proof.
  intros self doc. split; [split; [discriminate | reflexivity]|].
  apply (chunk_one_rebuild self doc).
  split; [discriminate | reflexivity].
Defined.


Lemma chunk_one_lengths_witness :
  let self := mkTextChunker 4 2 in
  let doc := doc_of "abcdefg" in
  0 < chunk_size self /\ overlap self < chunk_size self /\
  exists res,
    chunk_one self doc = Some res /\
    forall (i : nat) (c : Document), res !! i = Some c ->
      PyStr.len (page_content c)
      = Z.min (chunk_size self)
          (PyStr.len (page_content doc)
           - Z.of_nat i * (chunk_size self - overlap self)) /\
      0 < PyStr.len (page_content c).
Proof.
  intros self doc. split; [reflexivity|]. split; [reflexivity|].
  apply (chunk_one_lengths self doc); reflexivity.
Defined.

Lemma chunk_one_overlap_shared_witness :
  let self := mkTextChunker 4 2 in
  let doc := doc_of "abcdefg" in
  (0 <= overlap self < chunk_size self) /\
  exists res,
    chunk_one self doc = Some res /\
    forall (i : nat) (c c' : Document),
      res !! i = Some c -> res !! S i = Some c' ->
      substring (Z.to_nat (chunk_size self - overlap self))
        (Z.to_nat (overlap self)) (page_content c)
      = substring 0 (Z.to_nat (overlap self)) (page_content c').
Proof.
  intros self doc. split; [split; [discriminate | reflexivity]|].
  apply (chunk_one_overlap_shared self doc).
  split; [discriminate | reflexivity].
Defined.

(** X5.  [set_size] changes [chunk_size] only and checks nothing: after
    [set_size(s)], [chunk_one] returns on a document with content exactly
    when [overlap < s]. *)
Theorem set_size_unchecked (self : TextChunker) (s : Z) (doc : Document) :
  page_content doc <> "" ->
  chunk_size (set_size self s) = s /\
  overlap (set_size self s) = overlap self /\
  ((exists fuel res, chunk_one_fuel fuel (set_size self s) doc = Some res)
   <-> overlap self < s).
Proof.
  intros Hne. split; [reflexivity|]. split; [reflexivity|]. split.
  - intros (fuel & res & H).
    destruct (Z.lt_ge_cases (overlap self) s) as [|Hge]; [assumption|].
    unfold chunk_one_fuel in H.
    rewrite chunk_loop_diverges in H; [discriminate | | | lia].
    + unfold stride. cbn. lia.
    + unfold PyStr.len. destruct (page_content doc); [congruence|].
      simpl. lia.
  - intros HV. eexists _, _. apply chunk_one_windows. exact HV.
Qed.

Lemma set_size_unchecked_witness :
  let doc := doc_of "abc" in
  page_content doc <> "" /\
  (forall fuel, chunk_one_fuel fuel (set_size Chunker.default 100) doc = None) /\
  chunk_one (set_size Chunker.default 300) doc <> None.
Proof.
  intros doc. split; [discriminate|].
  destruct (set_size_unchecked Chunker.default 100 doc ltac:(discriminate))
    as (_ & _ & H100).
  split.
  - intros fuel.
    destruct (chunk_one_fuel fuel (set_size Chunker.default 100) doc)
      as [res|] eqn:E; [|reflexivity].
    exfalso. assert (Hlt : 200 < 100) by (apply H100; eauto).
    discriminate Hlt.
  - discriminate.
Defined.

(** The loop of [chunk_docs] on a list in two parts. *)
Lemma chunk_docs_loop_app (self : TextChunker) (a b result : list Document) :
  chunk_docs_loop self (a ++ b) result
  = match chunk_docs_loop self a result with
    | Some result' => chunk_docs_loop self b result'
    | None => None
    end.
Proof.
  revert result. induction a as [|d a IH]; intros result; [reflexivity|].
  cbn [app chunk_docs_loop]. destruct (chunk_one self d); [apply IH|reflexivity].
Qed.

(** X6.  [chunk_docs] on a list in two parts is the chunks of the first
    part followed by the chunks of the second; it returns nothing when
    either does not return. *)
Theorem chunk_docs_app (self : TextChunker) (a b : list Document) :
  chunk_docs self (a ++ b)
  = match chunk_docs self a, chunk_docs self b with
    | Some x, Some y => Some (x ++ y)
    | _, _ => None
    end.
Proof.
  unfold chunk_docs. rewrite chunk_docs_loop_app.
  destruct (chunk_docs_loop self a []) as [x|]; [|reflexivity].
  rewrite (chunk_docs_loop_acc self b x), (chunk_docs_loop_acc self b []).
  now destruct (mapM (chunk_one self) b).
Qed.

(** X7.  With [overlap < chunk_size], [chunk_docs] returns as many chunks
    as the documents have windows, [ceil(L / (chunk_size - overlap))] for
    a content of [L] characters; a document with empty content adds
    none. *)
Theorem chunk_docs_count (self : TextChunker) (docs : list Document) :
  overlap self < chunk_size self ->
  exists res,
    chunk_docs self docs = Some res /\
    Z.of_nat (length res)
    = fold_right Z.add 0
        (List.map (fun d => loop_chunk_count (PyStr.len (page_content d))
                              (chunk_size self) (overlap self)) docs).
Proof.
  intros HV. eexists. split; [now apply chunk_docs_total|].
  assert (Hs : 0 < stride self) by (unfold stride; lia).
  induction docs as [|d docs IH]; [reflexivity|].
  cbn [List.map List.concat fold_right].
  rewrite length_app, Nat2Z.inj_add, IH, windows_length.
  now rewrite (n_chunks_Z self d Hs).
Qed.

Lemma chunk_docs_count_witness :
  let self := mkTextChunker 4 2 in
  let docs := [doc_of "abcdefg"; doc_of ""; doc_of "xy"] in
  overlap self < chunk_size self /\
  exists res,
    chunk_docs self docs = Some res /\
    Z.of_nat (length res)
    = fold_right Z.add 0
        (List.map (fun d => loop_chunk_count (PyStr.len (page_content d))
                              (chunk_size self) (overlap self)) docs).
Proof.
  intros self docs. split; [reflexivity|].
  apply (chunk_docs_count self docs). reflexivity.
Defined.

End MoreChunkerWitnesses.

(** ** More on the loaders *)

Section MoreLoaders.

Import PyBuiltins Loaders Examples.

Lemma endswith_true (s suffix : string) :
  endswith s suffix = true ->
  substring (String.length s - String.length suffix) (String.length suffix) s
  = suffix.
Proof.
  unfold endswith. intros H. apply andb_true_iff in H as [_ H].
  now apply String.eqb_eq in H.
Qed.

(** X8.  No path passes the extension test of two different loaders. *)
Theorem ext_ok_exclusive (p : string) (k1 k2 : loader_kind) :
  _ext_ok p (ext k1) = true -> _ext_ok p (ext k2) = true -> k1 = k2.
Proof.
  unfold _ext_ok. intros H1 H2.
  apply endswith_true in H1. apply endswith_true in H2.
  destruct k1, k2; try reflexivity; cbn [ext String.length] in H1, H2;
    rewrite H1 in H2; discriminate H2.
Qed.

Lemma ext_ok_exclusive_witness :
  _ext_ok "Report.PDF" (ext PDFLoader) = true /\
  _ext_ok "Report.PDF" (ext PDFLoader) = true /\
  PDFLoader = PDFLoader.
Proof.
  split; [reflexivity|]. split; [reflexivity|].
  apply (ext_ok_exclusive "Report.PDF" PDFLoader PDFLoader); reflexivity.
Defined.

Variable k : loader_kind.
Variable w : World.

(** The loop only appends to its accumulator. *)
Lemma load_loop_acc (paths : list string) (out : list Document) :
  load_loop k w paths out
  = match load_loop k w paths [] with
    | inl e => inl e
    | inr docs => inr (out ++ docs)
    end.
Proof.
  revert out. induction paths as [|p paths IH]; intros out.
  - cbn. now rewrite app_nil_r.
  - cbn [load_loop]. destruct (negb (_ext_ok p (ext k))); [apply IH|].
    destruct (load_path k w p) as [e|docs]; [reflexivity|].
    rewrite (IH (out ++ docs)), (IH ([] ++ docs)).
    destruct (load_loop k w paths []); [reflexivity|].
    cbn [app]. now rewrite app_assoc.
Qed.

Lemma load_loop_app (a b : list string) (out : list Document) :
  load_loop k w (a ++ b) out
  = match load_loop k w a out with
    | inl e => inl e
    | inr out' => load_loop k w b out'
    end.
Proof.
  revert out. induction a as [|p a IH]; intros out; [reflexivity|].
  cbn [app load_loop]. destruct (negb (_ext_ok p (ext k))); [apply IH|].
  destruct (load_path k w p); [reflexivity | apply IH].
Qed.

(** X9.  Loading a list in two parts: [load] on [a ++ b] raises what
    [load] on [a] raises, else what [load] on [b] raises; else it returns
    the documents of [a] followed by those of [b], and the count that two
    calls in a row would leave. *)
Theorem load_app (self : DocumentLoader) (a b : list string) :
  load k self w (a ++ b)
  = match load k self w a with
    | inl e => inl e
    | inr (da, self1) =>
        match load k self1 w b with
        | inl e => inl e
        | inr (db, self2) => inr (da ++ db, self2)
        end
    end.
Proof.
  unfold load.
  destruct (match k with PDFLoader => _ | _ => _ end); [reflexivity|].
  rewrite load_loop_app.
  destruct (load_loop k w a []) as [e|da]; [reflexivity|].
  rewrite load_loop_acc.
  destruct (load_loop k w b []) as [e|db]; [reflexivity|].
  f_equal. f_equal. unfold _add. cbn [count]. f_equal.
  rewrite length_app. lia.
Qed.

(** X10.  The first matching path whose reading raises stops [load]: the
    exception is raised as it is, and the documents read before it are not
    returned. *)
Theorem load_first_failure (self self1 : DocumentLoader)
    (pre post : list string) (p : string) (docs : list Document) (e : exn) :
  load k self w pre = inr (docs, self1) ->
  _ext_ok p (ext k) = true ->
  load_path k w p = inl e ->
  load k self w (pre ++ p :: post) = inl e.
Proof.
  unfold load. intros Hpre Hm He.
  destruct (match k with PDFLoader => _ | _ => _ end); [discriminate|].
  rewrite load_loop_app.
  destruct (load_loop k w pre []) as [|out]; [discriminate|].
  cbn [load_loop]. rewrite Hm. cbn [negb]. now rewrite He.
Qed.

End MoreLoaders.

Section MoreLoadersWitnesses.

Import PyBuiltins Loaders Examples.

Lemma load_first_failure_witness :
  load TXTLoader init one_txt_world ["notes/A.TXT"; "x.pdf"]
  = inr ([mkDocument "hello" (file_meta "notes/A.TXT" "txt")],
         mkDocumentLoader 1) /\
  _ext_ok "gone.txt" (ext TXTLoader) = true /\
  load_path TXTLoader one_txt_world "gone.txt"
  = inl (mkExn "FileNotFoundError" "No such file or directory") /\
  load TXTLoader init one_txt_world
    (["notes/A.TXT"; "x.pdf"] ++ "gone.txt" :: ["notes/A.TXT"])
  = inl (mkExn "FileNotFoundError" "No such file or directory").
Proof.
  split; [reflexivity|]. split; [reflexivity|]. split; [reflexivity|].
  apply (load_first_failure TXTLoader one_txt_world init (mkDocumentLoader 1)
           ["notes/A.TXT"; "x.pdf"] ["notes/A.TXT"] "gone.txt"
           [mkDocument "hello" (file_meta "notes/A.TXT" "txt")]);
    reflexivity.
Defined.

End MoreLoadersWitnesses.

(** ** The three formats *)

Section Formats.

Import PyBuiltins Chunker Loaders Examples.

Variable w : World.

(** The document the TXT loader makes from the text of a file. *)
Lemma txt_loop_closed (txt : string -> string) (paths : list string)
    (out : list Document) :
  (forall p, p ∈ paths -> _ext_ok p ".txt" = true ->
             read_text w p = inr (txt p)) ->
  load_loop TXTLoader w paths out
  = inr (out ++ List.map
                  (fun p => mkDocument (strip (txt p)) (file_meta p "txt"))
                  (List.filter (matching TXTLoader) paths)).
Proof.
  revert out. induction paths as [|p paths IH]; intros out H.
  - cbn. now rewrite app_nil_r.
  - cbn [load_loop List.filter]. unfold matching at 1. cbn [ext].
    destruct (_ext_ok p ".txt") eqn:E; cbn [negb].
    + cbn [load_path]. rewrite (H p) by (auto using list_elem_of_here).
      rewrite IH by (intros q Hq; apply H; now apply list_elem_of_further).
      cbn [List.map]. now rewrite <- app_assoc.
    + apply IH. intros q Hq. apply H. now apply list_elem_of_further.
Qed.

(** X11.  When every matching text file can be read, the TXT loader returns
    one document per matching path, in the order of the paths: the
    stripped text of the file with its name, path and type; the count
    grows by the number of matching paths.  A file that is empty or all
    white space still gives a document. *)
Theorem txt_load_all (self : DocumentLoader) (txt : string -> string)
    (paths : list string) :
  (forall p, p ∈ paths -> _ext_ok p ".txt" = true ->
             read_text w p = inr (txt p)) ->
  let matches := List.filter (matching TXTLoader) paths in
  load TXTLoader self w paths
  = inr (List.map (fun p => mkDocument (strip (txt p)) (file_meta p "txt"))
           matches,
         mkDocumentLoader (count self + Z.of_nat (length matches))).
Proof.
  intros H matches. unfold load. rewrite (txt_loop_closed txt) by exact H.
  cbn [app]. fold matches. unfold _add. now rewrite length_map.
Qed.

Lemma row_docs_length (p : string) (i : nat)
    (rows : list (list (string * string))) :
  length (row_docs p i rows) = length rows.
Proof.
  revert i. induction rows as [|row rows IH]; intros i; simpl; auto.
Qed.

Lemma row_docs_lookup (p : string) (i j : nat)
    (rows : list (list (string * string))) (row : list (string * string)) :
  rows !! j = Some row ->
  row_docs p i rows !! j
  = Some (mkDocument (row_line row) (row_meta p (i + j))).
Proof.
  revert i j. induction rows as [|r rows IH]; intros i j H; [discriminate|].
  destruct j as [|j]; simpl in *.
  - injection H as ->. now rewrite Nat.add_0_r.
  - rewrite (IH (S i) j H). do 3 f_equal. lia.
Qed.

(** X12.  The CSV loader makes one document per row of a matching file:
    document [i] is the line of row [i] with ["row"] set to [i], counting
    from 0 in each file; a file without rows gives no document. *)
Theorem csv_load_rows (self : DocumentLoader) (p : string)
    (rows : list (list (string * string))) :
  _ext_ok p ".csv" = true ->
  read_csv w p = inr rows ->
  exists docs,
    load CSVLoader self w [p]
    = inr (docs, mkDocumentLoader (count self + Z.of_nat (length rows))) /\
    length docs = length rows /\
    forall (i : nat) (row : list (string * string)),
      rows !! i = Some row ->
      docs !! i = Some (mkDocument (row_line row) (row_meta p i)) /\
      metadata (mkDocument (row_line row) (row_meta p i)) !! "row"
      = Some (MInt (Z.of_nat i)).
Proof.
  intros Hm Hr. exists (row_docs p 0 rows). split; [|split].
  - unfold load, _add. cbn [load_loop ext]. rewrite Hm. cbn [negb load_path].
    rewrite Hr. cbn [app load_loop]. now rewrite row_docs_length.
  - apply row_docs_length.
  - intros i row Hi. split; [|reflexivity].
    now rewrite (row_docs_lookup p 0 i rows row Hi).
Qed.

(** X13.  The PDF loader keeps a matching file only when its pages have
    text: when the page texts, joined and stripped, are empty, the file
    gives no document and the count does not move; otherwise it gives one
    document with that text. *)
Theorem pdf_load_one (self : DocumentLoader) (p : string)
    (pages : list (option string)) :
  pypdf_installed w = true ->
  _ext_ok p ".pdf" = true ->
  read_pdf w p = inr pages ->
  load PDFLoader self w [p]
  = if String.eqb (strip (pages_text pages)) ""
    then inr ([], self)
    else inr ([mkDocument (strip (pages_text pages)) (file_meta p "pdf")],
              mkDocumentLoader (count self + 1)).
Proof.
  intros Hi Hm Hr. unfold load, _add. rewrite Hi. cbn [negb load_loop ext].
  rewrite Hm. cbn [negb load_path]. rewrite Hr.
  destruct (String.eqb (strip (pages_text pages)) ""); cbn.
  - destruct self as [c]. cbn. do 2 f_equal. f_equal. lia.
  - reflexivity.
Qed.

(** X14.  A text file that is empty or all white space is loaded and
    counted as a document with empty content, and chunking it gives no
    chunk, whatever the chunker. *)
Theorem txt_blank_file (self : DocumentLoader) (chunker : TextChunker)
    (p raw : string) :
  _ext_ok p ".txt" = true ->
  read_text w p = inr raw ->
  strip raw = "" ->
  exists docs,
    load TXTLoader self w [p]
    = inr (docs, mkDocumentLoader (count self + 1)) /\
    docs = [mkDocument "" (file_meta p "txt")] /\
    chunk_docs chunker docs = Some [].
Proof.
  intros Hm Hr Hs. eexists. split; [|split; [reflexivity|reflexivity]].
  unfold load, _add. cbn [load_loop ext]. rewrite Hm. cbn [negb load_path].
  rewrite Hr, Hs. reflexivity.
Qed.

End Formats.

Section FormatsWitnesses.

Import PyBuiltins Chunker Loaders Examples.

Lemma txt_load_all_witness :
  let paths := ["x.pdf"; "notes/A.TXT"; "data.csv"] in
  (forall p, p ∈ paths -> _ext_ok p ".txt" = true ->
             read_text one_txt_world p = inr " hello ") /\
  load TXTLoader init one_txt_world paths
  = inr ([mkDocument "hello" (file_meta "notes/A.TXT" "txt")],
         mkDocumentLoader 1).
Proof.
  intros paths.
  assert (H : forall p, p ∈ paths -> _ext_ok p ".txt" = true ->
                        read_text one_txt_world p = inr " hello ").
  { intros p Hp. repeat (apply elem_of_cons in Hp as [-> | Hp];
                         [try discriminate; reflexivity|]).
    now apply not_elem_of_nil in Hp. }
  split; [exact H|].
  exact (txt_load_all one_txt_world init (fun _ => " hello ") paths H).
Defined.

Lemma csv_load_rows_witness :
  let rows := [[("name", "item1"); ("value", "100")];
               [("name", "item2"); ("value", "200")]] in
  let w := mkWorld false (read_text one_txt_world) (fun _ => inr rows)
             (read_pdf one_txt_world) in
  _ext_ok "data.csv" ".csv" = true /\
  read_csv w "data.csv" = inr rows /\
  exists docs,
    load CSVLoader init w ["data.csv"]
    = inr (docs, mkDocumentLoader (count init + Z.of_nat (length rows))) /\
    length docs = length rows /\
    forall (i : nat) (row : list (string * string)),
      rows !! i = Some row ->
      docs !! i = Some (mkDocument (row_line row) (row_meta "data.csv" i)) /\
      metadata (mkDocument (row_line row) (row_meta "data.csv" i)) !! "row"
      = Some (MInt (Z.of_nat i)).
Proof.
  intros rows w. split; [reflexivity|]. split; [reflexivity|].
  apply (csv_load_rows w init "data.csv" rows); reflexivity.
Defined.

Lemma pdf_load_one_witness :
  let pages := [None; Some "  "; Some ""] in
  let w := mkWorld true (read_text one_txt_world) (read_csv one_txt_world)
             (fun _ => inr pages) in
  pypdf_installed w = true /\
  _ext_ok "scan.pdf" ".pdf" = true /\
  read_pdf w "scan.pdf" = inr pages /\
  load PDFLoader init w ["scan.pdf"] = inr ([], init).
Proof.
  intros pages w. split; [reflexivity|]. split; [reflexivity|].
  split; [reflexivity|].
  apply (pdf_load_one w init "scan.pdf" pages); reflexivity.
Defined.

Lemma txt_blank_file_witness :
  let w := mkWorld false (fun _ => inr "   ") (read_csv one_txt_world)
             (read_pdf one_txt_world) in
  _ext_ok "blank.txt" ".txt" = true /\
  read_text w "blank.txt" = inr "   " /\
  strip "   " = "" /\
  exists docs,
    load TXTLoader init w ["blank.txt"]
    = inr (docs, mkDocumentLoader (count init + 1)) /\
    docs = [mkDocument "" (file_meta "blank.txt" "txt")] /\
    chunk_docs Chunker.default docs = Some [].
Proof.
  intros w. split; [reflexivity|]. split; [reflexivity|].
  split; [reflexivity|].
  apply (txt_blank_file w init Chunker.default "blank.txt" "   ");
    reflexivity.
Defined.

End FormatsWitnesses.

(** ** Stripped contents *)

Section Stripped.

Import PyBuiltins Loaders Examples.

Lemma lstrip_idem (s : string) : lstrip (lstrip s) = lstrip s.
Proof.
  induction s as [|c s IH]; [reflexivity|]. cbn [lstrip].
  destruct (is_space c) eqn:E; [exact IH|]. cbn [lstrip]. now rewrite E.
Qed.

Lemma rstrip_idem (s : string) : rstrip (rstrip s) = rstrip s.
Proof.
  induction s as [|c s IH]; [reflexivity|]. cbn [rstrip].
  destruct (rstrip s) as [|a r] eqn:E.
  - destruct (is_space c) eqn:Ec; [reflexivity|]. cbn [rstrip]. now rewrite Ec.
  - change (rstrip (String c (String a r)))
      with (match rstrip (String a r) with
            | EmptyString =>
                if is_space c then EmptyString else String c EmptyString
            | r' => String c r'
            end).
    now rewrite IH.
Qed.

(** Stripping on the left keeps a string without trailing white space
    without trailing white space. *)
Lemma rstrip_lstrip_fixed (u : string) :
  rstrip u = u -> rstrip (lstrip u) = lstrip u.
Proof.
  induction u as [|c u IH]; [reflexivity|]. intros H. cbn [lstrip].
  destruct (is_space c) eqn:Ec; [|exact H].
  apply IH. cbn [rstrip] in H. destruct (rstrip u) as [|a r] eqn:E.
  - rewrite Ec in H. discriminate H.
  - now injection H.
Qed.

Lemma strip_idem (s : string) : strip (strip s) = strip s.
Proof.
  unfold strip.
  rewrite (rstrip_lstrip_fixed (rstrip s)) by apply rstrip_idem.
  apply lstrip_idem.
Qed.

Variable k : loader_kind.
Variable w : World.

Lemma load_loop_Forall (P : Document -> Prop) (paths : list string)
    (out docs : list Document) :
  (forall p new, load_path k w p = inr new -> Forall P new) ->
  Forall P out ->
  load_loop k w paths out = inr docs -> Forall P docs.
Proof.
  intros Hpath. revert out. induction paths as [|p paths IH]; intros out Ho H.
  - now injection H as <-.
  - cbn [load_loop] in H. destruct (negb (_ext_ok p (ext k))); [eauto|].
    destruct (load_path k w p) as [|new] eqn:E; [discriminate|].
    apply (IH (out ++ new)); [|exact H].
    apply Forall_app. split; [exact Ho | eauto].
Qed.

(** X15.  The content of every document of the PDF and TXT loaders is
    stripped: stripping it again changes nothing.  A PDF document is
    never empty. *)
Theorem loaded_content_stripped (self self' : DocumentLoader)
    (paths : list string) (docs : list Document) (d : Document) :
  k <> CSVLoader ->
  load k self w paths = inr (docs, self') ->
  d ∈ docs ->
  strip (page_content d) = page_content d /\
  (k = PDFLoader -> page_content d <> "").
Proof.
  intros Hk H Hd. unfold load in H.
  destruct (match k with PDFLoader => _ | _ => _ end); [discriminate|].
  destruct (load_loop k w paths []) as [|out] eqn:E; [discriminate|].
  injection H as <- _.
  assert (HF : Forall (fun d => strip (page_content d) = page_content d /\
                                (k = PDFLoader -> page_content d <> ""))
                 out).
  { apply (load_loop_Forall _ paths [] out); [|constructor|exact E].
    intros p new Hp. unfold load_path in Hp. destruct k; [| |congruence].
    - destruct (read_pdf w p); [discriminate|].
      destruct (String.eqb_spec (strip (pages_text l)) "") as [|Hne];
        injection Hp as <-; [constructor|].
      constructor; [|constructor]. split; [apply strip_idem | auto].
    - destruct (read_text w p); [discriminate|]. injection Hp as <-.
      constructor; [|constructor]. split; [apply strip_idem | discriminate]. }
  rewrite Forall_forall in HF. now apply HF.
Qed.

End Stripped.

Section StrippedWitnesses.

Import PyBuiltins Loaders Examples.

Lemma loaded_content_stripped_witness :
  let d := mkDocument "hello" (file_meta "notes/A.TXT" "txt") in
  TXTLoader <> CSVLoader /\
  load TXTLoader init one_txt_world ["notes/A.TXT"]
  = inr ([d], mkDocumentLoader 1) /\
  d ∈ [d] /\
  strip (page_content d) = page_content d /\
  (TXTLoader = PDFLoader -> page_content d <> "").
Proof.
  intros d. split; [discriminate|]. split; [reflexivity|].
  split; [apply list_elem_of_here|].
  apply (loaded_content_stripped TXTLoader one_txt_world init
           (mkDocumentLoader 1) ["notes/A.TXT"] [d] d);
    [discriminate | reflexivity | apply list_elem_of_here].
Defined.

End StrippedWitnesses.

(** ** More on [OllamaEmbedder] *)

Section MoreEmbedder.

Import PyBuiltins Retriever Examples.

Variable self : OllamaEmbedder.
Variable net : Network.


(** X17.  [embed_query] never raises a [URLError]: every one is replaced
    by the plain [Exception].  An exception of another class raised while
    the body is read or parsed (a JSON decoding error, say) is raised as
    it is. *)
Theorem embed_query_exceptions (text : string) :
  (forall e, snd (embed_query self net text) = inl e ->
             is_URLError e = false) /\
  (forall e, net (embedding_request self text)
             = inr (mkResponse 200 (inl e)) ->
             is_URLError e = false ->
             snd (embed_query self net text) = inl e).
Proof.
  unfold embed_query, _get_embedding. cbn [snd]. split.
  - intros e H. unfold except_URLError in H.
    destruct (try_body _) as [e0|v]; [|discriminate].
    destruct (is_URLError e0) eqn:E; injection H as <-; [reflexivity|exact E].
  - intros e Hnet He. rewrite Hnet. cbn. now rewrite He.
Qed.

(** X18.  A 200 response whose JSON body is not an object (a list, a
    string, a number, null) makes [embed_query] raise [AttributeError]:
    only a dict has [get]. *)
Theorem embed_query_not_object (text : string) (v : json) :
  net (embedding_request self text) = inr (mkResponse 200 (inr v)) ->
  (forall items, v <> JObj items) ->
  exists msg,
    snd (embed_query self net text) = inl (mkExn "AttributeError" msg).
Proof.
  intros Hnet Hv. unfold embed_query, _get_embedding. cbn [snd].
  rewrite Hnet. destruct v; try (eexists; reflexivity).
  now destruct (Hv items).
Qed.

(** The first text of [embed_documents]. *)
Lemma embed_documents_cons (text : string) (texts : list string) :
  embed_documents self net (text :: texts)
  = match snd (embed_query self net text) with
    | inl e => ([embedding_request self text], inl e)
    | inr v =>
        match embed_documents self net texts with
        | (sent, inl e) => (embedding_request self text :: sent, inl e)
        | (sent, inr vs) => (embedding_request self text :: sent, inr (v :: vs))
        end
    end.
Proof.
  cbn [embed_documents embed_query _get_embedding snd].
  destruct (except_URLError self _); [reflexivity|].
  now destruct (embed_documents self net texts) as [sent [e|vs]].
Qed.

(** X19.  When [embed_documents] returns, it has sent one request per
    text, in the order of the texts, and its result holds, in the same
    order, what [embed_query] returns for each text. *)
Theorem embed_documents_all (texts : list string) (vs : list json) :
  snd (embed_documents self net texts) = inr vs ->
  fst (embed_documents self net texts)
  = List.map (embedding_request self) texts /\
  Forall2 (fun text v => snd (embed_query self net text) = inr v) texts vs.
Proof.
  revert vs. induction texts as [|text texts IH]; intros vs H.
  - cbn in H. injection H as <-. split; [reflexivity | constructor].
  - rewrite embed_documents_cons in H |- *.
    destruct (snd (embed_query self net text)) as [e|v] eqn:Eq;
      [discriminate H|].
    destruct (embed_documents self net texts) as [sent [e|vs']] eqn:Ed;
      [discriminate H|].
    cbn [snd fst] in *. injection H as <-.
    destruct (IH vs' eq_refl) as [Hsent Hall].
    split; [cbn [List.map]; now rewrite Hsent | now constructor].
Qed.


End MoreEmbedder.

Section MoreEmbedderWitnesses.

Import PyBuiltins Retriever Examples.


Lemma embed_query_exceptions_witness :
  let bad := mkExn "JSONDecodeError" "Expecting value: line 1 column 1 (char 0)" in
  let net : Network := fun _ => inr (mkResponse 200 (inl bad)) in
  snd (embed_query Retriever.default net "hello") = inl bad /\
  is_URLError bad = false.
Proof.
  intros bad net.
  destruct (embed_query_exceptions Retriever.default net "hello")
    as [Hnever Hpass].
  assert (H : snd (embed_query Retriever.default net "hello") = inl bad)
    by (apply Hpass; reflexivity).
  split; [exact H | exact (Hnever bad H)].
Defined.

Lemma embed_query_not_object_witness :
  let v := JArr [JInt 1; JInt 2] in
  net_answers v (embedding_request Retriever.default "hello")
  = inr (mkResponse 200 (inr v)) /\
  (forall items, v <> JObj items) /\
  exists msg,
    snd (embed_query Retriever.default (net_answers v) "hello")
    = inl (mkExn "AttributeError" msg).
Proof.
  intros v. split; [reflexivity|]. split; [discriminate|].
  apply (embed_query_not_object Retriever.default (net_answers v) "hello" v);
    [reflexivity | discriminate].
Defined.

Lemma embed_documents_all_witness :
  let v := JArr [JInt 1] in
  let net := net_answers (JObj [("embedding", v)]) in
  snd (embed_documents Retriever.default net ["a"; "b"]) = inr [v; v] /\
  fst (embed_documents Retriever.default net ["a"; "b"])
  = List.map (embedding_request Retriever.default) ["a"; "b"] /\
  Forall2 (fun text x => snd (embed_query Retriever.default net text) = inr x)
    ["a"; "b"] [v; v].
Proof.
  intros v net. split; [reflexivity|].
  apply (embed_documents_all Retriever.default net ["a"; "b"] [v; v]).
  reflexivity.
Defined.


End MoreEmbedderWitnesses.

(** ** Properties of [Ollama] and [LLMGenerator] *)

Section GeneratorFacts.

Import PyBuiltins Retriever Examples.



(** X22.  Each method of [LLMGenerator] sends exactly one request, also
    for an empty list of documents, and always to
    ["http://localhost:11434/api/generate"] with the model the generator
    was built with: the constructor leaves no way to set the server.
    [summarize_docs] and [evaluate_relevance] return what [complete]
    returns; [generate_answer] returns a string answer as it is. *)
Theorem generator_requests (str_of_dict : gmap string meta_val -> string)
    (str_of_value : json -> string) (model : string) (net : Network)
    (question answer : string) (docs : list Document) :
  let gen := Generator.init model in
  let sent_by (r : list Request) (prompt : string) :=
    r = [mkRequest "http://localhost:11434/api/generate"
           (Some (JObj [("model", JStr model); ("prompt", JStr prompt);
                        ("stream", JBool false)]))
           [("Content-Type", "application/json")]] in
  sent_by (fst (Generator.summarize_docs gen net docs))
    (Generator.summary_prompt docs) /\
  sent_by (fst (Generator.evaluate_relevance gen net question answer))
    (Generator.relevance_prompt question answer) /\
  sent_by (fst (Generator.generate_answer str_of_dict str_of_value gen net
                  question docs))
    (Generator.answer_prompt str_of_dict question docs) /\
  (forall s,
     snd (Generator.complete (Generator.llm gen) net
            (Generator.answer_prompt str_of_dict question docs))
     = inr (JStr s) ->
     snd (Generator.generate_answer str_of_dict str_of_value gen net
            question docs) = inr s) /\
  (forall e,
     snd (Generator.complete (Generator.llm gen) net
            (Generator.answer_prompt str_of_dict question docs))
     = inl e ->
     snd (Generator.generate_answer str_of_dict str_of_value gen net
            question docs) = inl e).
Proof.
  intros gen sent_by. unfold sent_by.
  split; [reflexivity|]. split; [reflexivity|]. split.
  - unfold Generator.generate_answer, Generator.complete.
    now destruct (Generator.except_URLError _ _).
  - unfold Generator.generate_answer, Generator.complete. cbn [snd].
    split; intros x H; rewrite H; reflexivity.
Qed.

End GeneratorFacts.

(** ** Properties of [Retriever] *)

Section RetrieverFacts.

Import PyBuiltins Retriever Retrieval Examples.

(** X23.  [retrieve] first embeds the query.  When the embedding raises,
    [retrieve] raises the same exception and the vector store is not
    searched.  Otherwise the store is searched once, with the embedding,
    [k] and the filter as given, and its documents are returned in its
    order; [retrieve_by_source] is that search with the filter
    [{"source": source}]. *)
Theorem retrieve_events (self : Retrieval.Retriever) (net : Network)
    (query source : string) (k : Z)
    (filter : option (gmap string meta_val)) :
  let req := embedding_request (embedder self) query in
  (forall e,
     snd (embed_query (embedder self) net query) = inl e ->
     retrieve self net query k filter = ([Http req], inl e)) /\
  (forall embedding,
     snd (embed_query (embedder self) net query) = inr embedding ->
     fst (retrieve self net query k filter)
     = [Http req; SearchByVector embedding k filter] /\
     snd (retrieve self net query k filter)
     = match similarity_search_by_vector (vs self) embedding k filter with
       | inl e => inl e
       | inr results => inr results
       end /\
     fst (retrieve_by_source self net query source k)
     = [Http req;
        SearchByVector embedding k (Some {["source" := MStr source]})]).
Proof.
  intros req. unfold retrieve_by_source, retrieve, embed_query, _get_embedding.
  cbn [snd]. fold req. split.
  - intros e H. now rewrite H.
  - intros embedding H. rewrite H. cbn [fst snd List.map app].
    repeat split.
    destruct (similarity_search_by_vector _ _ _ _) as [|results];
      [reflexivity|].
    f_equal. induction results as [|[c m] results IH]; [reflexivity|].
    cbn [List.map]. now rewrite IH.
Qed.

End RetrieverFacts.

Section RetrieverWitnesses.

Import PyBuiltins Retriever Retrieval Examples.

Lemma retrieve_events_witness :
  let store := mkVectorStore (fun _ _ _ => inr [doc_of "found"])
                 (fun _ _ => inr []) in
  let r := mkRetriever store Retriever.default in
  fst (retrieve r net_down "what" 5 None)
  = [Http (embedding_request Retriever.default "what")] /\
  retrieve r (net_answers (JObj [("embedding", JArr [JInt 1])])) "what" 5 None
  = ([Http (embedding_request Retriever.default "what");
      SearchByVector (JArr [JInt 1]) 5 None],
     inr [doc_of "found"]).
Proof.
  intros store r. split.
  - destruct (retrieve_events r net_down "what" "" 5 None) as [Hfail _].
    now rewrite (Hfail _ eq_refl).
  - destruct (retrieve_events r
                (net_answers (JObj [("embedding", JArr [JInt 1])]))
                "what" "" 5 None) as [_ Hok].
    destruct (Hok _ eq_refl) as (Hsent & Hres & _).
    rewrite (surjective_pairing (retrieve r _ "what" 5 None)).
    now rewrite Hsent, Hres.
Defined.

End RetrieverWitnesses.
